(** * Transaction records of the wallet GUI (src/qt/transactionrecord.cpp)

    A shallow embedding of [TransactionRecord::showTransaction],
    [TransactionRecord::decomposeTransaction] and
    [TransactionRecord::updateStatus], and the properties of the
    decomposition and of the status snapshot.

    Conventions.
    - The locals of [decomposeTransaction] are declared [int64] in the
      source; their arithmetic is written with the two's complement
      wrap-around [wrap64].
    - The wallet, the chain index and the script decoder are collaborators
      of this file: what the code asks of them (IsMine, HaveKey,
      ExtractAddress, the queries of CWalletTx, nBestHeight, ...) is data or
      a function parameter of the model.
    - Members and globals whose declarations are in headers outside this
      file (nBestHeight, nLockTime, nTimeReceived, depth, open_for,
      matures_in, idx, ...) are integers ([Z]).  nBestHeight is an int and
      nLockTime an unsigned int: their difference in [updateStatus] is
      taken in unsigned 32-bit arithmetic ([UInt32.sub]) before it is
      stored in the 64-bit open_for.  The other comparisons and the
      difference of the two times are on values that the wider type holds
      and are exact.
    - [strprintf] is modelled for the conversions that the source uses:
      [%0Nd] of an int and [%0Nu] of a 32-bit unsigned int. *)

From Stdlib Require Import ZArith String Ascii Lia List.
From stdpp Require Import base option list strings gmap.

Local Open Scope Z_scope.

(** ** Machine integers *)

Module Int64.

Definition modulus : Z := 2 ^ 64.
Definition half : Z := 2 ^ 63.

(** Two's complement reduction of an integer to the range of int64. *)
Definition wrap64 (z : Z) : Z := (z + half) mod modulus - half.

Definition in_range (z : Z) : Prop := - half <= z < half.

Definition add (a b : Z) : Z := wrap64 (a + b).
Definition sub (a b : Z) : Z := wrap64 (a - b).
Definition neg (a : Z) : Z := wrap64 (- a).

End Int64.

Module UInt32.

Definition modulus : Z := 2 ^ 32.

(** The difference of an int and an unsigned int: both operands are taken
    as unsigned int and the result is reduced modulo 2^32. *)
Definition sub (a b : Z) : Z := (a - b) mod modulus.

End UInt32.

(** std::numeric_limits<int>::max() *)
Definition INT_MAX : Z := 2147483647.

(** ** strprintf *)

Module Printf.

Definition digit_char (d : Z) : ascii := ascii_of_nat (48 + Z.to_nat d).

(** Decimal digits of a non-negative number, least significant digit
    produced first and pushed in front of the digits already there. *)
Fixpoint utoa_aux (fuel : nat) (n : Z) (acc : string) : string :=
  match fuel with
  | O => acc
  | S fuel' =>
      let acc' := String (digit_char (n mod 10)) acc in
      if n / 10 =? 0 then acc' else utoa_aux fuel' (n / 10) acc'
  end.

(** A number below 2^k has at most k decimal digits. *)
Definition utoa (n : Z) : string :=
  utoa_aux (S (Z.to_nat (Z.log2 n))) n "".

Fixpoint zeros (k : nat) : string :=
  match k with
  | O => EmptyString
  | S k' => String "0" (zeros k')
  end.

(** The 0 flag: zeros on the left up to the field width; a longer text is
    left as it is. *)
Definition zero_pad (width : nat) (s : string) : string :=
  zeros (width - String.length s) +:+ s.

(** [%0<width>d] of an int: the sign counts in the field width. *)
Definition fmt_0d (width : nat) (v : Z) : string :=
  if v <? 0 then String "-" (zero_pad (width - 1) (utoa (- v)))
  else zero_pad width (utoa v).

(** [%0<width>u] of an unsigned int. *)
Definition fmt_0u (width : nat) (v : Z) : string :=
  zero_pad width (utoa (v mod 2 ^ 32)).

(** The digits of [n mod 10^width], most significant first. *)
Fixpoint fixed (width : nat) (n : Z) : string :=
  match width with
  | O => EmptyString
  | S w => String (digit_char (n / 10 ^ Z.of_nat w mod 10))
                  (fixed w (n mod 10 ^ Z.of_nat w))
  end.

End Printf.

(** ** Data model *)

(** Record kinds (TransactionRecord::Type). *)
Inductive RecordType : Set :=
  | Other
  | Generated
  | SendToAddress
  | SendToOther
  | RecvWithAddress
  | RecvFromOther
  | SendToSelf
  | StakeMint.

(** TransactionStatus::Status. *)
Inductive Status : Set :=
  | HaveConfirmations
  | OpenUntilDate
  | OpenUntilBlock
  | Offline
  | Unconfirmed.

(** TransactionStatus::Maturity.  The enumerators are declared in
    transactionrecord.h; the code of this file names Immature, Mature,
    MaturesWarning and NotAccepted, the specification lists NotApplicable
    as well. *)
Inductive Maturity : Set :=
  | NotApplicable
  | Immature
  | Mature
  | MaturesWarning
  | NotAccepted.

#[global] Instance RecordType_eq_dec : EqDecision RecordType.
Proof. solve_decision. Defined.
#[global] Instance Status_eq_dec : EqDecision Status.
Proof. solve_decision. Defined.
#[global] Instance Maturity_eq_dec : EqDecision Maturity.
Proof. solve_decision. Defined.

Record TransactionStatus : Type := mkStatus {
  confirmed : bool;
  sortKey : string;
  maturity : Maturity;
  matures_in : Z;
  status_code : Status;      (* the member called status *)
  depth : Z;
  open_for : Z;
  cur_num_blocks : Z
}.

Record TransactionRecord : Type := mkRecord {
  hash : N;
  time : Z;
  type : RecordType;
  address : string;
  debit : Z;
  credit : Z;
  idx : Z;
  status : TransactionStatus
}.

(** The status of a record that was just built (the default constructor of
    TransactionStatus, declared in transactionrecord.h).  [updateStatus]
    overwrites it; none of the properties below depends on these values. *)
Definition TransactionStatus_new : TransactionStatus :=
  mkStatus false "" Mature 0 Offline 0 0 (-1).

(** Modelled from the spec: the constructor TransactionRecord(hash, time) is
    declared in transactionrecord.h.  A record built from a hash and a time
    alone has kind Other, an empty counterparty, zero debit and credit
    (specification: zero if purely a credit or purely a debit record) and
    index 0. *)
Definition TransactionRecord_new (h : N) (t : Z) : TransactionRecord :=
  mkRecord h t Other "" 0 0 0 TransactionStatus_new.

(** Modelled from the spec: the constructor TransactionRecord(hash, time,
    type, address, debit, credit) is declared in transactionrecord.h; the
    index of a record that is alone for its transaction is 0. *)
Definition TransactionRecord_make (h : N) (t : Z) (ty : RecordType)
    (addr : string) (d c : Z) : TransactionRecord :=
  mkRecord h t ty addr d c 0 TransactionStatus_new.

(** Member assignments [sub.x = v]. *)
Definition set_idx (v : Z) (r : TransactionRecord) : TransactionRecord :=
  mkRecord (hash r) (time r) (type r) (address r) (debit r) (credit r) v (status r).
Definition set_credit (v : Z) (r : TransactionRecord) : TransactionRecord :=
  mkRecord (hash r) (time r) (type r) (address r) (debit r) v (idx r) (status r).
Definition set_debit (v : Z) (r : TransactionRecord) : TransactionRecord :=
  mkRecord (hash r) (time r) (type r) (address r) v (credit r) (idx r) (status r).
Definition set_type (v : RecordType) (r : TransactionRecord) : TransactionRecord :=
  mkRecord (hash r) (time r) v (address r) (debit r) (credit r) (idx r) (status r).
Definition set_address (v : string) (r : TransactionRecord) : TransactionRecord :=
  mkRecord (hash r) (time r) (type r) v (debit r) (credit r) (idx r) (status r).
Definition set_status (v : TransactionStatus) (r : TransactionRecord) : TransactionRecord :=
  mkRecord (hash r) (time r) (type r) (address r) (debit r) (credit r) (idx r) v.

(** Member assignments [status.x = v]. *)
Definition st_sortKey (v : string) (s : TransactionStatus) : TransactionStatus :=
  mkStatus (confirmed s) v (maturity s) (matures_in s) (status_code s) (depth s)
           (open_for s) (cur_num_blocks s).
Definition st_confirmed (v : bool) (s : TransactionStatus) : TransactionStatus :=
  mkStatus v (sortKey s) (maturity s) (matures_in s) (status_code s) (depth s)
           (open_for s) (cur_num_blocks s).
Definition st_depth (v : Z) (s : TransactionStatus) : TransactionStatus :=
  mkStatus (confirmed s) (sortKey s) (maturity s) (matures_in s) (status_code s) v
           (open_for s) (cur_num_blocks s).
Definition st_cur_num_blocks (v : Z) (s : TransactionStatus) : TransactionStatus :=
  mkStatus (confirmed s) (sortKey s) (maturity s) (matures_in s) (status_code s)
           (depth s) (open_for s) v.
Definition st_status (v : Status) (s : TransactionStatus) : TransactionStatus :=
  mkStatus (confirmed s) (sortKey s) (maturity s) (matures_in s) v (depth s)
           (open_for s) (cur_num_blocks s).
Definition st_open_for (v : Z) (s : TransactionStatus) : TransactionStatus :=
  mkStatus (confirmed s) (sortKey s) (maturity s) (matures_in s) (status_code s)
           (depth s) v (cur_num_blocks s).
Definition st_maturity (v : Maturity) (s : TransactionStatus) : TransactionStatus :=
  mkStatus (confirmed s) (sortKey s) v (matures_in s) (status_code s) (depth s)
           (open_for s) (cur_num_blocks s).
Definition st_matures_in (v : Z) (s : TransactionStatus) : TransactionStatus :=
  mkStatus (confirmed s) (sortKey s) (maturity s) v (status_code s) (depth s)
           (open_for s) (cur_num_blocks s).

(** An entry of the block index. *)
Record CBlockIndex : Type := mkBlockIndex {
  nHeight : Z
}.

(** The globals that [updateStatus] reads.  The values of mapBlockIndex are
    pointers: [None] is the null pointer. *)
Record ChainState : Type := mkChain {
  mapBlockIndex : gmap N (option CBlockIndex);
  nBestHeight : Z;
  GetAdjustedTime : Z
}.

Record COutPoint : Type := mkOutPoint {
  prevout_hash : N;
  prevout_n : Z
}.

Record CTxIn : Type := mkTxIn {
  prevout : COutPoint
}.

Section Model.

(** Scripts and addresses are decoded outside this file. *)
Context {CScript CBitcoinAddress : Type}.
Variable ExtractAddress : CScript -> option CBitcoinAddress.
Variable ToString : CBitcoinAddress -> string.

(** Constants of main.h and transactionrecord.h. *)
Variable LOCKTIME_THRESHOLD : Z.
Variable NumConfirmations : Z.

Record CTxOut : Type := mkTxOut {
  nValue : Z;
  scriptPubKey : CScript
}.

(** What this file asks of a wallet transaction. *)
Record CWalletTx : Type := mkWalletTx {
  GetHash : N;
  hashBlock : N;
  vin : list CTxIn;
  vout : list CTxOut;
  nLockTime : Z;
  nTimeReceived : Z;
  mapValue : gmap string string;
  IsCoinBase : bool;
  IsCoinStake : bool;
  IsFinal : bool;
  IsConfirmed : bool;
  IsInMainChain : bool;
  GetDepthInMainChain : Z;
  GetBlocksToMaturity : Z;
  GetRequestCount : Z;
  GetTxTime : Z;
  GetCredit : Z;             (* GetCredit(true) *)
  GetDebit : Z;
  GetChange : Z;
  GetValueOut : Z
}.

(** What this file asks of the wallet. *)
Record CWallet : Type := mkWallet {
  IsMine_in : CTxIn -> bool;
  IsMine_out : CTxOut -> bool;
  HaveKey : CBitcoinAddress -> bool
}.

(** std::map operator[] on the local copy of mapValue: the value under
    the key, the empty string when there is none. *)
Definition map_index (m : gmap string string) (k : string) : string :=
  default EmptyString (m !! k).

(** *** showTransaction *)

Definition showTransaction (wtx : CWalletTx) : bool :=
  if IsCoinBase wtx then
    if GetDepthInMainChain wtx <? 2 then false else true
  else true.

(** *** decomposeTransaction *)

(** Body of the loop of the credit branch. *)
Definition credit_step (wallet : CWallet) (wtx : CWalletTx)
    (parts : list TransactionRecord) (txout : CTxOut) : list TransactionRecord :=
  if IsMine_out wallet txout then
    let sub := TransactionRecord_new (GetHash wtx) (GetTxTime wtx) in
    let sub := set_idx (Z.of_nat (length parts)) sub in
    let sub := set_credit (nValue txout) sub in
    let sub :=
      if IsCoinBase wtx then set_type Generated sub
      else
        match ExtractAddress (scriptPubKey txout) with
        | Some addr =>
            if HaveKey wallet addr
            then set_address (ToString addr) (set_type RecvWithAddress sub)
            else set_address (map_index (mapValue wtx) "from")
                             (set_type RecvFromOther sub)
        | None => set_address (map_index (mapValue wtx) "from")
                              (set_type RecvFromOther sub)
        end in
    parts ++ [sub]
  else parts.

(** Body of the loop of the debit branch; the state is the list built so
    far and the fee that is still to be charged. *)
Definition debit_step (wallet : CWallet) (wtx : CWalletTx)
    (st : list TransactionRecord * Z) (txout : CTxOut)
    : list TransactionRecord * Z :=
  let '(parts, nTxFee) := st in
  let sub := TransactionRecord_new (GetHash wtx) (GetTxTime wtx) in
  let sub := set_idx (Z.of_nat (length parts)) sub in
  if IsMine_out wallet txout then (parts, nTxFee)
  else
    let sub :=
      match ExtractAddress (scriptPubKey txout) with
      | Some addr => set_address (ToString addr) (set_type SendToAddress sub)
      | None => set_address (map_index (mapValue wtx) "to")
                            (set_type SendToOther sub)
      end in
    let nValue0 := nValue txout in
    let '(nValue1, nTxFee1) :=
      if nTxFee >? 0 then (Int64.add nValue0 nTxFee, 0) else (nValue0, nTxFee) in
    let sub := set_debit (Int64.neg nValue1) sub in
    (parts ++ [sub], nTxFee1).

Definition fAllFromMe (wallet : CWallet) (wtx : CWalletTx) : bool :=
  fold_left (fun acc txin => acc && IsMine_in wallet txin) (vin wtx) true.

Definition fAllToMe (wallet : CWallet) (wtx : CWalletTx) : bool :=
  fold_left (fun acc txout => acc && IsMine_out wallet txout) (vout wtx) true.

(** int64 nNet = nCredit - nDebit *)
Definition nNet (wtx : CWalletTx) : Z := Int64.sub (GetCredit wtx) (GetDebit wtx).

Definition decomposeTransaction (wallet : CWallet) (wtx : CWalletTx)
    : list TransactionRecord :=
  let parts : list TransactionRecord := [] in
  let nTime := GetTxTime wtx in
  let nCredit := GetCredit wtx in
  let nDebit := GetDebit wtx in
  let h := GetHash wtx in
  if showTransaction wtx then
    if IsCoinStake wtx then
      parts ++ [TransactionRecord_make h nTime StakeMint "" (Int64.neg nDebit)
                                       (GetValueOut wtx)]
    else if (nNet wtx >? 0) || IsCoinBase wtx then
      fold_left (credit_step wallet wtx) (vout wtx) parts
    else
      if fAllFromMe wallet wtx && fAllToMe wallet wtx then
        let nChange := GetChange wtx in
        parts ++ [TransactionRecord_make h nTime SendToSelf ""
                    (Int64.neg (Int64.sub nDebit nChange))
                    (Int64.sub nCredit nChange)]
      else if fAllFromMe wallet wtx then
        let nTxFee := Int64.sub nDebit (GetValueOut wtx) in
        fst (fold_left (debit_step wallet wtx) (vout wtx) (parts, nTxFee))
      else
        parts ++ [TransactionRecord_make h nTime Other "" (nNet wtx) 0]
  else parts.

(** *** updateStatus *)

(** The test that is written twice in [updateStatus]: received more than
    two minutes ago and never requested by a peer. *)
Definition not_requested (chain : ChainState) (wtx : CWalletTx) : bool :=
  (GetAdjustedTime chain - nTimeReceived wtx >? 2 * 60)
  && (GetRequestCount wtx =? 0).

(** The block the transaction is in: the pointer found in mapBlockIndex,
    null when the hash is not a key. *)
Definition find_pindex (chain : ChainState) (wtx : CWalletTx) : option CBlockIndex :=
  match mapBlockIndex chain !! hashBlock wtx with
  | Some p => p
  | None => None
  end.

(** strprintf("%010d-%01d-%010u-%03d", ...) *)
Definition format_sortKey (height flag received index : Z) : string :=
  Printf.fmt_0d 10 height +:+ "-" +:+ Printf.fmt_0d 1 flag +:+ "-"
    +:+ Printf.fmt_0u 10 received +:+ "-" +:+ Printf.fmt_0d 3 index.

Definition is_generated (ty : RecordType) : bool :=
  bool_decide (ty = Generated) || bool_decide (ty = StakeMint).

Definition updateStatus (chain : ChainState) (wtx : CWalletTx)
    (r : TransactionRecord) : TransactionRecord :=
  let pindex := find_pindex chain wtx in
  let s := status r in
  let s := st_sortKey
             (format_sortKey
                (match pindex with Some p => nHeight p | None => INT_MAX end)
                (if IsCoinBase wtx then 1 else 0)
                (nTimeReceived wtx)
                (idx r)) s in
  let s := st_confirmed (IsConfirmed wtx) s in
  let s := st_depth (GetDepthInMainChain wtx) s in
  let s := st_cur_num_blocks (nBestHeight chain) s in
  let s :=
    if negb (IsFinal wtx) then
      if nLockTime wtx <? LOCKTIME_THRESHOLD then
        st_open_for (UInt32.sub (nBestHeight chain) (nLockTime wtx))
                    (st_status OpenUntilBlock s)
      else
        st_open_for (nLockTime wtx) (st_status OpenUntilDate s)
    else
      if not_requested chain wtx then st_status Offline s
      else if depth s <? NumConfirmations then st_status Unconfirmed s
      else st_status HaveConfirmations s in
  let s :=
    if is_generated (type r) then
      let nCredit := GetCredit wtx in
      if nCredit =? 0 then
        let s := st_maturity Immature s in
        if IsInMainChain wtx then
          let s := st_matures_in (GetBlocksToMaturity wtx) s in
          if not_requested chain wtx then st_maturity MaturesWarning s else s
        else st_maturity NotAccepted s
      else st_maturity Mature s
    else s in
  set_status s r.

Definition statusUpdateNeeded (chain : ChainState) (r : TransactionRecord) : bool :=
  negb (cur_num_blocks (status r) =? nBestHeight chain).

(** *** Closed forms of the two loops

    What one iteration appends, and the list a whole run appends after
    [k] records; the theorems relate them to the folds above. *)

Definition recv_kind (wallet : CWallet) (wtx : CWalletTx) (txout : CTxOut)
    : RecordType * string :=
  if IsCoinBase wtx then (Generated, EmptyString)
  else
    match ExtractAddress (scriptPubKey txout) with
    | Some addr =>
        if HaveKey wallet addr then (RecvWithAddress, ToString addr)
        else (RecvFromOther, map_index (mapValue wtx) "from")
    | None => (RecvFromOther, map_index (mapValue wtx) "from")
    end.

Definition credit_record (wallet : CWallet) (wtx : CWalletTx) (k : nat)
    (txout : CTxOut) : TransactionRecord :=
  mkRecord (GetHash wtx) (GetTxTime wtx) (fst (recv_kind wallet wtx txout))
           (snd (recv_kind wallet wtx txout)) 0 (nValue txout) (Z.of_nat k)
           TransactionStatus_new.

Fixpoint credit_records (wallet : CWallet) (wtx : CWalletTx) (k : nat)
    (outs : list CTxOut) : list TransactionRecord :=
  match outs with
  | [] => []
  | txout :: outs' =>
      credit_record wallet wtx k txout :: credit_records wallet wtx (S k) outs'
  end.

Definition send_kind (wtx : CWalletTx) (txout : CTxOut) : RecordType * string :=
  match ExtractAddress (scriptPubKey txout) with
  | Some addr => (SendToAddress, ToString addr)
  | None => (SendToOther, map_index (mapValue wtx) "to")
  end.

(** [fee] is the part of the fee that this record carries. *)
Definition debit_record (wtx : CWalletTx) (k : nat) (fee : Z)
    (txout : CTxOut) : TransactionRecord :=
  mkRecord (GetHash wtx) (GetTxTime wtx) (fst (send_kind wtx txout))
           (snd (send_kind wtx txout)) (- (nValue txout + fee)) 0 (Z.of_nat k)
           TransactionStatus_new.

Fixpoint debit_records (wtx : CWalletTx) (k : nat) (fee : Z)
    (outs : list CTxOut) : list TransactionRecord :=
  match outs with
  | [] => []
  | txout :: outs' =>
      debit_record wtx k fee txout :: debit_records wtx (S k) 0 outs'
  end.

(** *** Amounts

    Every amount of a wallet transaction is far inside the range of int64:
    with all of them at most 2^61 in absolute value, the sums and
    differences of three of them that [decomposeTransaction] forms do not
    wrap. *)

Definition amount_ok (z : Z) : Prop := - 2 ^ 61 <= z <= 2 ^ 61.

Definition amounts_ok (wtx : CWalletTx) : Prop :=
  amount_ok (GetCredit wtx) /\ amount_ok (GetDebit wtx) /\
  amount_ok (GetChange wtx) /\ amount_ok (GetValueOut wtx) /\
  Forall (fun txout => amount_ok (nValue txout)) (vout wtx).

End Model.

(** The indices of a list of records are 0, 1, ..., n-1 in list order. *)
Definition dense (parts : list TransactionRecord) : Prop :=
  map idx parts = map Z.of_nat (seq 0 (length parts)).

(** Sum of a list of amounts. *)
Definition total (amounts : list Z) : Z := fold_right Z.add 0 amounts.

(** *** getTxID *)

Section Identifier.

(** uint256::ToString, the hexadecimal text of the hash. *)
Variable uint256_ToString : N -> string.

(** hash.ToString() + strprintf("-%03d", idx) *)
Definition getTxID (r : TransactionRecord) : string :=
  uint256_ToString (hash r) +:+ String "-" (Printf.fmt_0d 3 (idx r)).

End Identifier.

(** ** A wallet and some transactions to run the functions on

    Scripts are written as the text of the address they pay to, the empty
    script paying to no address; the wallet owns the outputs whose script
    begins with the letter m and the inputs that spend transaction 1. *)

Module Scenario.

Abbreviation Tx := (CWalletTx (CScript := string)).
Abbreviation TxOut := (CTxOut (CScript := string)).

Definition ExtractAddress (script : string) : option string :=
  match script with
  | EmptyString => None
  | _ => Some script
  end.

Definition ToString (addr : string) : string := addr.

Definition LOCKTIME_THRESHOLD : Z := 500000000.
Definition NumConfirmations : Z := 6.

Definition starts_with_m (s : string) : bool :=
  match s with
  | String c _ => Ascii.eqb c "m"
  | EmptyString => false
  end.

Definition wallet : CWallet (CScript := string) (CBitcoinAddress := string) :=
  {| IsMine_in := fun txin => (prevout_hash (prevout txin) =? 1)%N;
     IsMine_out := fun txout => starts_with_m (scriptPubKey txout);
     HaveKey := starts_with_m |}.

Definition my_input : CTxIn := mkTxIn (mkOutPoint 1 0).
Definition foreign_input : CTxIn := mkTxIn (mkOutPoint 2 0).

(** A transaction received one minute before the adjusted time of
    [chain], in block 7 when [confirmed_in] says so. *)
Definition base_tx : Tx :=
  {| GetHash := 42; hashBlock := 0; vin := []; vout := [];
     nLockTime := 0; nTimeReceived := 1700000000; mapValue := ∅;
     IsCoinBase := false; IsCoinStake := false; IsFinal := true;
     IsConfirmed := false; IsInMainChain := false;
     GetDepthInMainChain := 0; GetBlocksToMaturity := 0;
     GetRequestCount := 1; GetTxTime := 1700000000;
     GetCredit := 0; GetDebit := 0; GetChange := 0; GetValueOut := 0 |}.

Definition chain : ChainState :=
  {| mapBlockIndex := {[ 7%N := Some (mkBlockIndex 100) ]};
     nBestHeight := 100;
     GetAdjustedTime := 1700000060 |}.

Definition with_amounts (credit debit change value_out : Z)
    (ins : list CTxIn) (outs : list TxOut) (tx : Tx) : Tx :=
  {| GetHash := GetHash tx; hashBlock := hashBlock tx; vin := ins; vout := outs;
     nLockTime := nLockTime tx; nTimeReceived := nTimeReceived tx;
     mapValue := mapValue tx;
     IsCoinBase := IsCoinBase tx; IsCoinStake := IsCoinStake tx;
     IsFinal := IsFinal tx; IsConfirmed := IsConfirmed tx;
     IsInMainChain := IsInMainChain tx;
     GetDepthInMainChain := GetDepthInMainChain tx;
     GetBlocksToMaturity := GetBlocksToMaturity tx;
     GetRequestCount := GetRequestCount tx; GetTxTime := GetTxTime tx;
     GetCredit := credit; GetDebit := debit; GetChange := change;
     GetValueOut := value_out |}.

Definition in_block (block : N) (depth_now : Z) (tx : Tx) : Tx :=
  {| GetHash := GetHash tx; hashBlock := block; vin := vin tx; vout := vout tx;
     nLockTime := nLockTime tx; nTimeReceived := nTimeReceived tx;
     mapValue := mapValue tx;
     IsCoinBase := IsCoinBase tx; IsCoinStake := IsCoinStake tx;
     IsFinal := IsFinal tx; IsConfirmed := bool_decide (1 <= depth_now);
     IsInMainChain := bool_decide (1 <= depth_now);
     GetDepthInMainChain := depth_now;
     GetBlocksToMaturity := GetBlocksToMaturity tx;
     GetRequestCount := GetRequestCount tx; GetTxTime := GetTxTime tx;
     GetCredit := GetCredit tx; GetDebit := GetDebit tx;
     GetChange := GetChange tx; GetValueOut := GetValueOut tx |}.

Definition as_coinbase (to_maturity : Z) (tx : Tx) : Tx :=
  {| GetHash := GetHash tx; hashBlock := hashBlock tx;
     vin := [mkTxIn (mkOutPoint 0 (-1))]; vout := vout tx;
     nLockTime := nLockTime tx; nTimeReceived := nTimeReceived tx;
     mapValue := mapValue tx;
     IsCoinBase := true; IsCoinStake := false;
     IsFinal := IsFinal tx; IsConfirmed := IsConfirmed tx;
     IsInMainChain := IsInMainChain tx;
     GetDepthInMainChain := GetDepthInMainChain tx;
     GetBlocksToMaturity := to_maturity;
     GetRequestCount := GetRequestCount tx; GetTxTime := GetTxTime tx;
     GetCredit := GetCredit tx; GetDebit := GetDebit tx;
     GetChange := GetChange tx; GetValueOut := GetValueOut tx |}.

Definition as_coinstake (tx : Tx) : Tx :=
  {| GetHash := GetHash tx; hashBlock := hashBlock tx;
     vin := vin tx; vout := vout tx;
     nLockTime := nLockTime tx; nTimeReceived := nTimeReceived tx;
     mapValue := mapValue tx;
     IsCoinBase := false; IsCoinStake := true;
     IsFinal := IsFinal tx; IsConfirmed := IsConfirmed tx;
     IsInMainChain := IsInMainChain tx;
     GetDepthInMainChain := GetDepthInMainChain tx;
     GetBlocksToMaturity := GetBlocksToMaturity tx;
     GetRequestCount := GetRequestCount tx; GetTxTime := GetTxTime tx;
     GetCredit := GetCredit tx; GetDebit := GetDebit tx;
     GetChange := GetChange tx; GetValueOut := GetValueOut tx |}.

Definition locked (lock : Z) (tx : Tx) : Tx :=
  {| GetHash := GetHash tx; hashBlock := hashBlock tx;
     vin := vin tx; vout := vout tx;
     nLockTime := lock; nTimeReceived := nTimeReceived tx;
     mapValue := mapValue tx;
     IsCoinBase := IsCoinBase tx; IsCoinStake := IsCoinStake tx;
     IsFinal := false; IsConfirmed := IsConfirmed tx;
     IsInMainChain := IsInMainChain tx;
     GetDepthInMainChain := GetDepthInMainChain tx;
     GetBlocksToMaturity := GetBlocksToMaturity tx;
     GetRequestCount := GetRequestCount tx; GetTxTime := GetTxTime tx;
     GetCredit := GetCredit tx; GetDebit := GetDebit tx;
     GetChange := GetChange tx; GetValueOut := GetValueOut tx |}.

Definition decompose (tx : Tx) : list TransactionRecord :=
  decomposeTransaction ExtractAddress ToString wallet tx.
Definition update (tx : Tx) (r : TransactionRecord) : TransactionRecord :=
  updateStatus LOCKTIME_THRESHOLD NumConfirmations chain tx r.

Definition a_record : TransactionRecord := TransactionRecord_new 42 1700000000.

(** A generated transaction paying 100 and 200 to the wallet, [depth_now]
    blocks deep, its credit not yet spendable. *)
Definition reward_tx (depth_now : Z) : Tx :=
  in_block 7 depth_now
    (as_coinbase (520 - depth_now)
       (with_amounts 0 0 0 300 [] [mkTxOut 100 "mA"; mkTxOut 200 "mB"] base_tx)).

(** A coinstake of the wallet that is in no block yet: it spends 1000 and
    pays 1010 back; nothing of it is spendable. *)
Definition stake_tx : Tx :=
  as_coinstake
    (with_amounts 0 1000 0 1010 [my_input]
       [mkTxOut 0 ""; mkTxOut 1010 "mA"] base_tx).

(** The wallet pays 500 to a foreign address, with a fee of 10. *)
Definition send_tx : Tx :=
  with_amounts 0 510 0 500 [my_input] [mkTxOut 500 "xB"] base_tx.

(** The wallet pays 990 to itself, with a fee of 10. *)
Definition self_tx : Tx :=
  with_amounts 990 1000 990 990 [my_input] [mkTxOut 990 "mB"] base_tx.

(** Inputs of the wallet and of somebody else, net value -50. *)
Definition mixed_tx : Tx :=
  with_amounts 50 100 0 500 [my_input; foreign_input] [mkTxOut 500 "xB"] base_tx.

(** Somebody else pays 70 to an address of the wallet and keeps 30. *)
Definition recv_tx : Tx :=
  with_amounts 70 0 0 100 [foreign_input]
    [mkTxOut 30 "xChange"; mkTxOut 70 "mA"] base_tx.

(** The wallet pays 500 to a foreign address and 20 to a script without
    address, takes 490 back as change and leaves a fee of 10. *)
Definition payment_tx : Tx :=
  with_amounts 490 1020 490 1010 [my_input]
    [mkTxOut 500 "xB"; mkTxOut 490 "mChange"; mkTxOut 20 ""] base_tx.

(** A stand-in for the text of a hash. *)
Definition hash_text (h : N) : string := Printf.utoa (Z.of_N h).

(** The chain of [chain] one block later. *)
Definition chain_next : ChainState :=
  {| mapBlockIndex := mapBlockIndex chain;
     nBestHeight := nBestHeight chain + 1;
     GetAdjustedTime := GetAdjustedTime chain + 600 |}.

(** A second block, at height 250. *)
Definition chain2 : ChainState :=
  {| mapBlockIndex := {[ 7%N := Some (mkBlockIndex 100);
                         8%N := Some (mkBlockIndex 250) ]};
     nBestHeight := 250;
     GetAdjustedTime := 1700000060 |}.

Definition received_at (t : Z) (tx : Tx) : Tx :=
  {| GetHash := GetHash tx; hashBlock := hashBlock tx;
     vin := vin tx; vout := vout tx;
     nLockTime := nLockTime tx; nTimeReceived := t;
     mapValue := mapValue tx;
     IsCoinBase := IsCoinBase tx; IsCoinStake := IsCoinStake tx;
     IsFinal := IsFinal tx; IsConfirmed := IsConfirmed tx;
     IsInMainChain := IsInMainChain tx;
     GetDepthInMainChain := GetDepthInMainChain tx;
     GetBlocksToMaturity := GetBlocksToMaturity tx;
     GetRequestCount := GetRequestCount tx; GetTxTime := GetTxTime tx;
     GetCredit := GetCredit tx; GetDebit := GetDebit tx;
     GetChange := GetChange tx; GetValueOut := GetValueOut tx |}.

Definition never_requested (tx : Tx) : Tx :=
  {| GetHash := GetHash tx; hashBlock := hashBlock tx;
     vin := vin tx; vout := vout tx;
     nLockTime := nLockTime tx; nTimeReceived := nTimeReceived tx;
     mapValue := mapValue tx;
     IsCoinBase := IsCoinBase tx; IsCoinStake := IsCoinStake tx;
     IsFinal := IsFinal tx; IsConfirmed := IsConfirmed tx;
     IsInMainChain := IsInMainChain tx;
     GetDepthInMainChain := GetDepthInMainChain tx;
     GetBlocksToMaturity := GetBlocksToMaturity tx;
     GetRequestCount := 0; GetTxTime := GetTxTime tx;
     GetCredit := GetCredit tx; GetDebit := GetDebit tx;
     GetChange := GetChange tx; GetValueOut := GetValueOut tx |}.

End Scenario.

(** ** Properties of the formatting *)

Module PrintfFacts.
Import Printf.

Lemma app_String (c : ascii) (s t : string) :
  String c s +:+ t = String c (s +:+ t).
Proof. reflexivity. Qed.

Lemma app_empty_l (t : string) : "" +:+ t = t.
Proof. reflexivity. Qed.

Lemma app_assoc (s t u : string) : (s +:+ t) +:+ u = s +:+ (t +:+ u).
Proof.
  induction s as [| c s IH]; [reflexivity |].
  rewrite !app_String, IH. reflexivity.
Qed.

Lemma app_length (s t : string) :
  String.length (s +:+ t) = (String.length s + String.length t)%nat.
Proof.
  induction s as [| c s IH]; [reflexivity |].
  rewrite app_String. cbn [String.length]. rewrite IH. reflexivity.
Qed.

Lemma digit_cases (d : Z) :
  0 <= d < 10 ->
  d = 0 \/ d = 1 \/ d = 2 \/ d = 3 \/ d = 4 \/
  d = 5 \/ d = 6 \/ d = 7 \/ d = 8 \/ d = 9.
Proof. lia. Qed.

Lemma digit_char_code (d : Z) :
  0 <= d < 10 -> N_of_ascii (digit_char d) = (48 + Z.to_N d)%N.
Proof.
  intros Hd. destruct (digit_cases d Hd) as [-> | H]; [reflexivity |].
  repeat (destruct H as [-> | H]; [reflexivity |]). subst d. reflexivity.
Qed.

Lemma digit_char_compare (a b : Z) :
  0 <= a < 10 -> 0 <= b < 10 ->
  Ascii.compare (digit_char a) (digit_char b) = (a ?= b).
Proof.
  intros Ha Hb. unfold Ascii.compare.
  rewrite !digit_char_code by assumption.
  rewrite <- N2Z.inj_compare, !N2Z.inj_add, !Z2N.id by lia.
  apply Z.add_compare_mono_l.
Qed.

Lemma pow10_pos (w : nat) : 0 < 10 ^ Z.of_nat w.
Proof. apply Z.pow_pos_nonneg; lia. Qed.

Lemma pow10_succ (w : nat) : 10 ^ Z.of_nat (S w) = 10 * 10 ^ Z.of_nat w.
Proof. rewrite Nat2Z.inj_succ, Z.pow_succ_r by lia. reflexivity. Qed.

(** The leading digit of a number that fits in w+1 digits. *)
Lemma lead_digit (w : nat) (n : Z) :
  0 <= n < 10 ^ Z.of_nat (S w) ->
  0 <= n / 10 ^ Z.of_nat w < 10 /\
  n / 10 ^ Z.of_nat w mod 10 = n / 10 ^ Z.of_nat w.
Proof.
  intros [Hn0 Hn]. rewrite pow10_succ in Hn.
  pose proof (pow10_pos w) as Hp.
  assert (0 <= n / 10 ^ Z.of_nat w < 10) as Hd.
  { split; [apply Z.div_pos; lia |].
    apply Z.div_lt_upper_bound; lia. }
  split; [exact Hd | apply Z.mod_small; exact Hd].
Qed.

(** Fixed-width decimal texts compare as the numbers they denote. *)
Lemma fixed_compare_lt (w : nat) :
  forall (a b : Z) (s t : string),
    0 <= a < 10 ^ Z.of_nat w -> 0 <= b < 10 ^ Z.of_nat w -> a < b ->
    String.compare (fixed w a +:+ s) (fixed w b +:+ t) = Lt.
Proof.
  induction w as [| w IH]; intros a b s t Ha Hb Hab.
  - simpl in Ha, Hb. lia.
  - destruct (lead_digit w a Ha) as [Hda Ea].
    destruct (lead_digit w b Hb) as [Hdb Eb].
    pose proof (pow10_pos w) as Hp.
    pose proof (Z.div_mod a (10 ^ Z.of_nat w) ltac:(lia)) as Da.
    pose proof (Z.div_mod b (10 ^ Z.of_nat w) ltac:(lia)) as Db.
    pose proof (Z.mod_pos_bound a (10 ^ Z.of_nat w) Hp) as Ra.
    pose proof (Z.mod_pos_bound b (10 ^ Z.of_nat w) Hp) as Rb.
    cbn [fixed]. rewrite !app_String. cbn [String.compare].
    rewrite Ea, Eb, digit_char_compare by assumption.
    destruct (Z.compare_spec (a / 10 ^ Z.of_nat w) (b / 10 ^ Z.of_nat w))
      as [Heq | Hlt | Hgt].
    + apply IH; try assumption. rewrite Heq in Da. nia.
    + reflexivity.
    + nia.
Qed.

Lemma fixed_zero (w : nat) : fixed w 0 = zeros w.
Proof.
  induction w as [| w IH]; [reflexivity |].
  pose proof (pow10_pos w) as Hp.
  cbn [fixed zeros]. rewrite Z.div_0_l, !Z.mod_0_l, IH by lia.
  reflexivity.
Qed.

(** The last digit can be split off instead of the first. *)
Lemma fixed_snoc (w : nat) :
  forall n : Z, 0 <= n ->
    fixed (S w) n = fixed w (n / 10) +:+ String (digit_char (n mod 10)) "".
Proof.
  induction w as [| w IH]; intros n Hn.
  - cbn [fixed]. rewrite app_empty_l. change (10 ^ Z.of_nat 0) with 1.
    rewrite Z.div_1_r. reflexivity.
  - pose proof (pow10_pos w) as Hp.
    assert (n mod 10 ^ Z.of_nat (S w)
            = n mod 10 + 10 * ((n / 10) mod 10 ^ Z.of_nat w)) as Hsplit.
    { rewrite pow10_succ. apply Z.rem_mul_r; lia. }
    pose proof (Z.mod_pos_bound n 10 ltac:(lia)) as Hr.
    change (fixed (S (S w)) n)
      with (String (digit_char (n / 10 ^ Z.of_nat (S w) mod 10))
                   (fixed (S w) (n mod 10 ^ Z.of_nat (S w)))).
    rewrite IH by (apply Z.mod_pos_bound, pow10_pos).
    change (fixed (S w) (n / 10))
      with (String (digit_char (n / 10 / 10 ^ Z.of_nat w mod 10))
                   (fixed w (n / 10 mod 10 ^ Z.of_nat w))).
    rewrite app_String. f_equal.
    + rewrite pow10_succ, Z.div_div by lia. reflexivity.
    + rewrite Hsplit. f_equal.
      * f_equal. rewrite Z.mul_comm, Z.div_add by lia.
        rewrite Z.div_small by lia. reflexivity.
      * do 2 f_equal. rewrite Z.mul_comm, Z.mod_add by lia.
        apply Z.mod_small; lia.
Qed.

Lemma fixed_digit (w : nat) (n : Z) :
  0 <= n < 10 ->
  fixed (S w) n = zeros w +:+ String (digit_char n) "".
Proof.
  intros Hn. rewrite fixed_snoc by lia.
  rewrite Z.div_small, Z.mod_small, fixed_zero by lia. reflexivity.
Qed.

Lemma div10_facts (n : Z) :
  0 <= n -> n = 10 * (n / 10) + n mod 10 /\ 0 <= n mod 10 < 10 /\ 0 <= n / 10.
Proof.
  intros Hn. pose proof (Z.div_mod n 10 ltac:(lia)).
  pose proof (Z.mod_pos_bound n 10 ltac:(lia)). lia.
Qed.

(** The digits that the conversion loop produces, padded to a width that
    they do not exceed, are the fixed-width digits. *)
Lemma utoa_aux_fixed (fuel : nat) :
  forall (w : nat) (n : Z) (acc : string),
    (1 <= w)%nat -> (1 <= fuel)%nat ->
    0 <= n < 10 ^ Z.of_nat w -> n < 2 ^ Z.of_nat fuel ->
    zero_pad (w + String.length acc) (utoa_aux fuel n acc) = fixed w n +:+ acc.
Proof.
  induction fuel as [| fuel IH]; intros w n acc Hw Hf Hn Hb; [lia |].
  destruct (div10_facts n ltac:(lia)) as (Hdm & Hr & Hq).
  cbn [utoa_aux]. destruct (n / 10 =? 0) eqn:E.
  - apply Z.eqb_eq in E. unfold zero_pad. cbn [String.length].
    destruct w as [| w]; [lia |].
    replace (S w + String.length acc - S (String.length acc))%nat with w by lia.
    rewrite fixed_digit by lia. rewrite Z.mod_small by lia.
    rewrite app_assoc, app_String, app_empty_l. reflexivity.
  - apply Z.eqb_neq in E.
    destruct w as [| [| w]]; [lia | change (10 ^ Z.of_nat 1) with 10 in Hn; lia |].
    rewrite (pow10_succ (S w)) in Hn.
    rewrite Nat2Z.inj_succ, Z.pow_succ_r in Hb by lia.
    assert (0 < 2 ^ Z.of_nat fuel) as Hp by (apply Z.pow_pos_nonneg; lia).
    destruct fuel as [| fuel']; [change (2 ^ Z.of_nat 0) with 1 in Hb; lia |].
    rewrite (fixed_snoc (S w)) by lia. rewrite app_assoc, app_String, app_empty_l.
    rewrite <- IH by lia. f_equal. cbn [String.length]. lia.
Qed.

Lemma utoa_fuel (n : Z) : 0 <= n -> n < 2 ^ Z.of_nat (S (Z.to_nat (Z.log2 n))).
Proof.
  intros Hn. rewrite Nat2Z.inj_succ, Z2Nat.id by apply Z.log2_nonneg.
  destruct (Z.eq_dec n 0) as [-> | Hne]; [reflexivity |].
  apply Z.log2_spec. lia.
Qed.

Lemma zero_pad_utoa (w : nat) (n : Z) :
  (1 <= w)%nat -> 0 <= n < 10 ^ Z.of_nat w ->
  zero_pad w (utoa n) = fixed w n.
Proof.
  intros Hw Hn. unfold utoa.
  pose proof (utoa_aux_fixed (S (Z.to_nat (Z.log2 n))) w n ""
                Hw ltac:(lia) Hn (utoa_fuel n ltac:(lia))) as H.
  cbn [String.length] in H. rewrite Nat.add_0_r in H. rewrite H.
  clear. induction (fixed w n) as [| c s IH]; [reflexivity |].
  rewrite app_String, IH. reflexivity.
Qed.

(** [%010d] of a height that is not negative is its ten digits. *)
Lemma fmt_0d_fixed (w : nat) (n : Z) :
  (1 <= w)%nat -> 0 <= n < 10 ^ Z.of_nat w -> fmt_0d w n = fixed w n.
Proof.
  intros Hw Hn. unfold fmt_0d.
  destruct (n <? 0) eqn:E; [apply Z.ltb_lt in E; lia |].
  apply zero_pad_utoa; assumption.
Qed.

(** The text of the largest int comes after the text of every other int:
    after a minus sign, and after every smaller number of ten digits. *)
Lemma fmt_0d_below_INT_MAX (h : Z) (s t : string) :
  h < INT_MAX ->
  String.compare (fmt_0d 10 h +:+ s) (fmt_0d 10 INT_MAX +:+ t) = Lt.
Proof.
  intros Hh. destruct (Z.ltb_spec h 0) as [Hneg | Hpos].
  - unfold fmt_0d at 1. destruct (Z.ltb_spec h 0) as [_ | ?]; [| lia].
    rewrite app_String. reflexivity.
  - unfold INT_MAX in *.
    rewrite !fmt_0d_fixed by (simpl; lia).
    apply fixed_compare_lt; simpl; lia.
Qed.

End PrintfFacts.
(** ** Properties of the int64 operations *)

Module Int64Facts.
Import Int64.

Lemma wrap64_id (z : Z) : in_range z -> wrap64 z = z.
Proof.
  unfold in_range, wrap64, half, modulus. intros H.
  rewrite Z.mod_small by lia. lia.
Qed.

Lemma sub_exact (a b : Z) : in_range (a - b) -> sub a b = a - b.
Proof. apply wrap64_id. Qed.

Lemma add_exact (a b : Z) : in_range (a + b) -> add a b = a + b.
Proof. apply wrap64_id. Qed.

Lemma neg_exact (a : Z) : in_range (- a) -> neg a = - a.
Proof. apply wrap64_id. Qed.

End Int64Facts.

(** ** Properties of the transaction records *)

Section Properties.

Context {CScript CBitcoinAddress : Type}.
Variable ExtractAddress : CScript -> option CBitcoinAddress.
Variable ToString : CBitcoinAddress -> string.
Variable LOCKTIME_THRESHOLD : Z.
Variable NumConfirmations : Z.

Implicit Types (wallet : CWallet (CScript := CScript)
                                 (CBitcoinAddress := CBitcoinAddress))
               (wtx : CWalletTx (CScript := CScript))
               (txout : CTxOut (CScript := CScript))
               (r : TransactionRecord) (chain : ChainState).

(** *** The sort key *)

Lemma updateStatus_sortKey chain wtx r :
  sortKey (status (updateStatus LOCKTIME_THRESHOLD NumConfirmations chain wtx r))
  = format_sortKey
      (match find_pindex chain wtx with Some p => nHeight p | None => INT_MAX end)
      (if IsCoinBase wtx then 1 else 0) (nTimeReceived wtx) (idx r).
Proof. unfold updateStatus. repeat case_match; reflexivity. Qed.

(** C1, as the code has it: the sort key of a transaction that has no
    block in the block index is lexicographically GREATER than the sort
    key of a transaction found in a block, whatever the receive times,
    the coinbase flags and the record indices are, for every block height
    below the largest int (the value that the code prints for a
    transaction without a block). *)
Theorem sortKey_unconfirmed_above_confirmed
    chain wtx1 wtx2 r1 r2 (pindex : CBlockIndex) :
  mapBlockIndex chain !! hashBlock wtx1 = None ->
  mapBlockIndex chain !! hashBlock wtx2 = Some (Some pindex) ->
  nHeight pindex < INT_MAX ->
  String.compare
    (sortKey (status (updateStatus LOCKTIME_THRESHOLD NumConfirmations chain wtx1 r1)))
    (sortKey (status (updateStatus LOCKTIME_THRESHOLD NumConfirmations chain wtx2 r2)))
  = Gt.
Proof.
  intros Hu Hc Hh. rewrite !updateStatus_sortKey. unfold find_pindex.
  rewrite Hu, Hc. unfold format_sortKey.
  rewrite String.compare_antisym, PrintfFacts.fmt_0d_below_INT_MAX by exact Hh.
  reflexivity.
Qed.

(** *** The visibility filter *)

Lemma hidden_decomposes_to_nil wallet wtx :
  showTransaction wtx = false ->
  decomposeTransaction ExtractAddress ToString wallet wtx = [].
Proof. intros H. unfold decomposeTransaction. rewrite H. reflexivity. Qed.

(** C2, as the code has it: a coinbase transaction whose depth in the
    main chain is below 2 is not shown and decomposes into no record;
    every transaction that is not a coinbase, a coinstake included, is
    shown whatever its depth is. *)
Theorem showTransaction_hides_young_coinbase wallet wtx :
  (IsCoinBase wtx = true -> GetDepthInMainChain wtx < 2 ->
     showTransaction wtx = false /\
     decomposeTransaction ExtractAddress ToString wallet wtx = []) /\
  (IsCoinBase wtx = false -> showTransaction wtx = true).
Proof.
  split.
  - intros Hcb Hd.
    assert (showTransaction wtx = false) as Hs.
    { unfold showTransaction. rewrite Hcb.
      destruct (Z.ltb_spec (GetDepthInMainChain wtx) 2); [reflexivity | lia]. }
    split; [exact Hs | apply hidden_decomposes_to_nil, Hs].
  - intros Hcb. unfold showTransaction. rewrite Hcb. reflexivity.
Qed.

(** *** The loops of decomposeTransaction *)

Lemma fold_and_forallb {A : Type} (f : A -> bool) (l : list A) (b : bool) :
  fold_left (fun acc x => acc && f x) l b = b && forallb f l.
Proof.
  revert b. induction l as [| x l IH]; intros b; cbn [fold_left forallb].
  - rewrite andb_true_r. reflexivity.
  - rewrite IH, andb_assoc. reflexivity.
Qed.

Lemma fAllFromMe_forallb wallet wtx :
  fAllFromMe wallet wtx = forallb (IsMine_in wallet) (vin wtx).
Proof. unfold fAllFromMe. rewrite fold_and_forallb. reflexivity. Qed.

Lemma fAllToMe_forallb wallet wtx :
  fAllToMe wallet wtx = forallb (IsMine_out wallet) (vout wtx).
Proof. unfold fAllToMe. rewrite fold_and_forallb. reflexivity. Qed.

Lemma credit_step_eq wallet wtx (parts : list TransactionRecord) txout :
  credit_step ExtractAddress ToString wallet wtx parts txout
  = if IsMine_out wallet txout
    then parts ++ [credit_record ExtractAddress ToString wallet wtx (length parts) txout]
    else parts.
Proof.
  unfold credit_step, credit_record, recv_kind.
  repeat case_match; reflexivity.
Qed.

Lemma credit_fold wallet wtx (outs : list CTxOut) :
  forall parts : list TransactionRecord,
    fold_left (credit_step ExtractAddress ToString wallet wtx) outs parts
    = parts ++ credit_records ExtractAddress ToString wallet wtx (length parts)
                 (List.filter (IsMine_out wallet) outs).
Proof.
  induction outs as [| txout outs IH]; intros parts.
  - cbn. rewrite app_nil_r. reflexivity.
  - cbn [fold_left List.filter]. rewrite credit_step_eq.
    destruct (IsMine_out wallet txout); [| apply IH].
    rewrite IH, length_app, <- app_assoc. cbn [length credit_records app].
    replace (length parts + 1)%nat with (S (length parts)) by lia. reflexivity.
Qed.

Lemma credit_records_length wallet wtx (outs : list CTxOut) :
  forall k, length (credit_records ExtractAddress ToString wallet wtx k outs)
            = length outs.
Proof. induction outs as [| o outs IH]; intros k; cbn; [| rewrite IH]; reflexivity. Qed.

Lemma credit_records_lookup wallet wtx (outs : list CTxOut) :
  forall (k i : nat) txout,
    outs !! i = Some txout ->
    credit_records ExtractAddress ToString wallet wtx k outs !! i
    = Some (credit_record ExtractAddress ToString wallet wtx (k + i) txout).
Proof.
  induction outs as [| o outs IH]; intros k i txout Hi; [discriminate |].
  destruct i as [| i]; cbn in Hi |- *.
  - injection Hi as ->. rewrite Nat.add_0_r. reflexivity.
  - etrans; [apply (IH (S k) i txout Hi) |]. do 2 f_equal. lia.
Qed.

Lemma credit_records_idx wallet wtx (outs : list CTxOut) :
  forall k, map idx (credit_records ExtractAddress ToString wallet wtx k outs)
            = map Z.of_nat (seq k (length outs)).
Proof.
  induction outs as [| o outs IH]; intros k; cbn; [| rewrite IH]; reflexivity.
Qed.

(** One iteration of the debit loop, when the fee still to be charged is
    not negative and no int64 operation wraps. *)
Lemma debit_step_eq wallet wtx (parts : list TransactionRecord) (fee : Z) txout :
  0 <= fee <= 2 ^ 62 -> amount_ok (nValue txout) ->
  debit_step ExtractAddress ToString wallet wtx (parts, fee) txout
  = if IsMine_out wallet txout then (parts, fee)
    else (parts ++ [debit_record ExtractAddress ToString wtx (length parts) fee txout], 0).
Proof.
  unfold amount_ok. intros Hf Hv.
  unfold debit_step, debit_record, send_kind.
  destruct (IsMine_out wallet txout); [reflexivity |].
  destruct (Z.gtb_spec fee 0) as [Hpos | Hzero].
  - rewrite Int64Facts.add_exact, Int64Facts.neg_exact
      by (unfold Int64.in_range, Int64.half; lia).
    case_match; reflexivity.
  - assert (fee = 0) as -> by lia.
    rewrite Int64Facts.neg_exact by (unfold Int64.in_range, Int64.half; lia).
    rewrite Z.add_0_r. case_match; reflexivity.
Qed.

Lemma debit_fold wallet wtx (outs : list CTxOut) :
  forall (parts : list TransactionRecord) (fee : Z),
    0 <= fee <= 2 ^ 62 ->
    Forall (fun txout => amount_ok (nValue txout)) outs ->
    fst (fold_left (debit_step ExtractAddress ToString wallet wtx) outs (parts, fee))
    = parts ++ debit_records ExtractAddress ToString wtx (length parts) fee
                 (List.filter (fun txout => negb (IsMine_out wallet txout)) outs).
Proof.
  induction outs as [| txout outs IH]; intros parts fee Hf Hall.
  - cbn. rewrite app_nil_r. reflexivity.
  - apply Forall_cons_1 in Hall as [Hv Hall].
    cbn [fold_left List.filter]. rewrite debit_step_eq by assumption.
    destruct (IsMine_out wallet txout); cbn [negb]; [apply IH; assumption |].
    rewrite IH by (assumption || lia).
    rewrite length_app, <- app_assoc. cbn [length debit_records app].
    replace (length parts + 1)%nat with (S (length parts)) by lia. reflexivity.
Qed.

Lemma debit_records_length wtx (outs : list CTxOut) :
  forall k fee, length (debit_records ExtractAddress ToString wtx k fee outs)
                = length outs.
Proof.
  induction outs as [| o outs IH]; intros k fee; cbn; [| rewrite IH]; reflexivity.
Qed.

Lemma debit_records_lookup wtx (outs : list CTxOut) :
  forall (k i : nat) (fee : Z) txout,
    outs !! i = Some txout ->
    debit_records ExtractAddress ToString wtx k fee outs !! i
    = Some (debit_record ExtractAddress ToString wtx (k + i)
              (match i with O => fee | S _ => 0 end) txout).
Proof.
  induction outs as [| o outs IH]; intros k i fee txout Hi; [discriminate |].
  destruct i as [| i]; cbn in Hi |- *.
  - injection Hi as ->. rewrite Nat.add_0_r. reflexivity.
  - etrans; [apply (IH (S k) i 0 txout Hi) |].
    replace (S k + i)%nat with (k + S i)%nat by lia.
    f_equal. unfold debit_record. destruct i; reflexivity.
Qed.

Lemma debit_records_idx wtx (outs : list CTxOut) :
  forall k fee, map idx (debit_records ExtractAddress ToString wtx k fee outs)
                = map Z.of_nat (seq k (length outs)).
Proof.
  induction outs as [| o outs IH]; intros k fee; cbn; [| rewrite IH]; reflexivity.
Qed.

(** *** The branches of decomposeTransaction *)

Lemma amounts_ok_net wtx :
  amounts_ok wtx -> Int64.in_range (GetCredit wtx - GetDebit wtx).
Proof.
  unfold amounts_ok, amount_ok, Int64.in_range, Int64.half.
  intros (? & ? & _). lia.
Qed.

Lemma nNet_exact wtx :
  Int64.in_range (GetCredit wtx - GetDebit wtx) ->
  nNet wtx = GetCredit wtx - GetDebit wtx.
Proof. apply Int64Facts.sub_exact. Qed.

(** The test of the second branch, on a transaction of net value at most
    zero that is not a coinbase. *)
Lemma credit_test_false wtx :
  Int64.in_range (GetCredit wtx - GetDebit wtx) ->
  GetCredit wtx - GetDebit wtx <= 0 -> IsCoinBase wtx = false ->
  (nNet wtx >? 0) || IsCoinBase wtx = false.
Proof.
  intros Hr Hn Hcb. rewrite nNet_exact, Hcb by assumption.
  destruct (Z.gtb_spec (GetCredit wtx - GetDebit wtx) 0); [lia | reflexivity].
Qed.

Lemma credit_test_true wtx :
  Int64.in_range (GetCredit wtx - GetDebit wtx) ->
  0 < GetCredit wtx - GetDebit wtx \/ IsCoinBase wtx = true ->
  (nNet wtx >? 0) || IsCoinBase wtx = true.
Proof.
  intros Hr [Hn | Hcb].
  - rewrite nNet_exact by assumption.
    destruct (Z.gtb_spec (GetCredit wtx - GetDebit wtx) 0); [reflexivity | lia].
  - rewrite Hcb. apply orb_true_r.
Qed.

(** C3: for a shown transaction that is not a coinstake and whose net
    value (credit minus debit, which fits in int64) is positive or which
    is a coinbase, the records are, in output order, one for each output
    of the wallet, with that output's value as credit; the record is
    Generated for a coinbase, RecvWithAddress with the text of the
    extracted address when the script gives an address whose key the
    wallet has, and RecvFromOther with the "from" entry of mapValue (empty
    when there is none) otherwise. *)
Theorem decompose_credit_records wallet wtx :
  showTransaction wtx = true ->
  IsCoinStake wtx = false ->
  Int64.in_range (GetCredit wtx - GetDebit wtx) ->
  0 < GetCredit wtx - GetDebit wtx \/ IsCoinBase wtx = true ->
  let mine := List.filter (IsMine_out wallet) (vout wtx) in
  let parts := decomposeTransaction ExtractAddress ToString wallet wtx in
  length parts = length mine /\
  forall (i : nat) txout,
    mine !! i = Some txout ->
    exists r,
      parts !! i = Some r /\
      credit r = nValue txout /\
      (IsCoinBase wtx = true -> type r = Generated) /\
      (IsCoinBase wtx = false ->
       forall addr, ExtractAddress (scriptPubKey txout) = Some addr ->
                    HaveKey wallet addr = true ->
                    type r = RecvWithAddress /\ address r = ToString addr) /\
      (IsCoinBase wtx = false ->
       (forall addr, ExtractAddress (scriptPubKey txout) = Some addr ->
                     HaveKey wallet addr = false) ->
       type r = RecvFromOther /\
       address r = default EmptyString (mapValue wtx !! "from")).
Proof.
  intros Hshow Hstake Hr Hnet mine parts.
  assert (parts = credit_records ExtractAddress ToString wallet wtx 0 mine) as ->.
  { subst parts mine. unfold decomposeTransaction.
    rewrite Hshow, Hstake, credit_test_true by assumption.
    rewrite credit_fold. reflexivity. }
  split; [apply credit_records_length |].
  intros i txout Hi. eexists. split; [apply credit_records_lookup, Hi |].
  unfold credit_record, recv_kind. cbn [credit type address].
  split; [reflexivity |]. split; [| split].
  - intros ->. reflexivity.
  - intros -> addr Ha Hk. rewrite Ha, Hk. split; reflexivity.
  - intros -> Hno. destruct (ExtractAddress (scriptPubKey txout)) as [addr |] eqn:Ha.
    + rewrite (Hno addr eq_refl). split; reflexivity.
    + split; reflexivity.
Qed.

(** C4: for a shown transaction that is neither coinstake nor coinbase,
    of net value at most zero, all of whose inputs and not all of whose
    outputs are the wallet's, with amounts that do not overflow and a fee
    (debit minus value out) that is not negative: the outputs of the
    wallet are skipped, the records are one for each other output in
    output order, the debit of the first is -(value + fee) and the debit
    of every later one is -value; SendToAddress with the text of the
    address when the script gives one, SendToOther with the "to" entry of
    mapValue otherwise. *)
Theorem decompose_debit_records wallet wtx :
  showTransaction wtx = true ->
  IsCoinStake wtx = false ->
  IsCoinBase wtx = false ->
  amounts_ok wtx ->
  GetCredit wtx - GetDebit wtx <= 0 ->
  forallb (IsMine_in wallet) (vin wtx) = true ->
  forallb (IsMine_out wallet) (vout wtx) = false ->
  0 <= GetDebit wtx - GetValueOut wtx ->
  let fee := GetDebit wtx - GetValueOut wtx in
  let external :=
    List.filter (fun txout => negb (IsMine_out wallet txout)) (vout wtx) in
  let parts := decomposeTransaction ExtractAddress ToString wallet wtx in
  length parts = length external /\
  forall (i : nat) txout,
    external !! i = Some txout ->
    exists r,
      parts !! i = Some r /\
      debit r = match i with
                | O => - (nValue txout + fee)
                | S _ => - nValue txout
                end /\
      (forall addr, ExtractAddress (scriptPubKey txout) = Some addr ->
                    type r = SendToAddress /\ address r = ToString addr) /\
      (ExtractAddress (scriptPubKey txout) = None ->
       type r = SendToOther /\
       address r = default EmptyString (mapValue wtx !! "to")).
Proof.
  intros Hshow Hstake Hcb Hok Hnet Hin Hout Hfee fee external parts.
  pose proof (amounts_ok_net wtx Hok) as Hr.
  destruct Hok as (Hc & Hd & Hch & Hvo & Hall). unfold amount_ok in Hc, Hd, Hch, Hvo.
  assert (parts = debit_records ExtractAddress ToString wtx 0 fee external) as ->.
  { subst parts external fee. unfold decomposeTransaction.
    rewrite Hshow, Hstake, credit_test_false by assumption.
    rewrite fAllFromMe_forallb, fAllToMe_forallb, Hin, Hout. cbn [andb].
    rewrite Int64Facts.sub_exact by (unfold Int64.in_range, Int64.half; lia).
    rewrite debit_fold by (assumption || lia). reflexivity. }
  split; [apply debit_records_length |].
  intros i txout Hi. eexists. split; [apply debit_records_lookup, Hi |].
  unfold debit_record, send_kind. cbn [debit type address].
  split; [destruct i; [reflexivity | f_equal; lia] |]. split.
  - intros addr ->. split; reflexivity.
  - intros ->. split; reflexivity.
Qed.

(** C5: for a shown transaction that is neither coinstake nor coinbase,
    of net value at most zero, all of whose inputs and all of whose
    outputs are the wallet's, with amounts that do not overflow: exactly
    one record, SendToSelf, with empty counterparty,
    debit = -(debit of the transaction - change) and
    credit = credit of the transaction - change. *)
Theorem decompose_send_to_self wallet wtx :
  showTransaction wtx = true ->
  IsCoinStake wtx = false ->
  IsCoinBase wtx = false ->
  amounts_ok wtx ->
  GetCredit wtx - GetDebit wtx <= 0 ->
  forallb (IsMine_in wallet) (vin wtx) = true ->
  forallb (IsMine_out wallet) (vout wtx) = true ->
  exists r,
    decomposeTransaction ExtractAddress ToString wallet wtx = [r] /\
    type r = SendToSelf /\
    address r = EmptyString /\
    debit r = - (GetDebit wtx - GetChange wtx) /\
    credit r = GetCredit wtx - GetChange wtx.
Proof.
  intros Hshow Hstake Hcb Hok Hnet Hin Hout.
  pose proof (amounts_ok_net wtx Hok) as Hr.
  destruct Hok as (Hc & Hd & Hch & Hvo & _). unfold amount_ok in Hc, Hd, Hch, Hvo.
  unfold decomposeTransaction.
  rewrite Hshow, Hstake, credit_test_false by assumption.
  rewrite fAllFromMe_forallb, fAllToMe_forallb, Hin, Hout. cbn [andb app].
  eexists. split; [reflexivity |]. cbn [type address debit credit TransactionRecord_make].
  rewrite !Int64Facts.sub_exact, Int64Facts.neg_exact
    by (unfold Int64.in_range, Int64.half; lia).
  repeat split.
Qed.

(** C6: for a shown transaction that is neither coinstake nor coinbase,
    of net value at most zero (a difference that fits in int64), not all
    of whose inputs are the wallet's (and not all of whose outputs are):
    exactly one record, Other, with empty counterparty, the net value as
    debit and credit 0. *)
Theorem decompose_mixed wallet wtx :
  showTransaction wtx = true ->
  IsCoinStake wtx = false ->
  IsCoinBase wtx = false ->
  Int64.in_range (GetCredit wtx - GetDebit wtx) ->
  GetCredit wtx - GetDebit wtx <= 0 ->
  forallb (IsMine_in wallet) (vin wtx) = false ->
  forallb (IsMine_out wallet) (vout wtx) = false ->
  exists r,
    decomposeTransaction ExtractAddress ToString wallet wtx = [r] /\
    type r = Other /\
    address r = EmptyString /\
    debit r = GetCredit wtx - GetDebit wtx /\
    credit r = 0.
Proof.
  intros Hshow Hstake Hcb Hr Hnet Hin _.
  unfold decomposeTransaction.
  rewrite Hshow, Hstake, credit_test_false by assumption.
  rewrite fAllFromMe_forallb, Hin. cbn [andb app].
  eexists. split; [reflexivity |]. cbn [type address debit credit TransactionRecord_make].
  rewrite nNet_exact by assumption. repeat split.
Qed.

(** *** Record indices *)

Lemma dense_snoc (parts : list TransactionRecord) r :
  dense parts -> idx r = Z.of_nat (length parts) -> dense (parts ++ [r]).
Proof.
  unfold dense. intros Hd Hr.
  rewrite length_app, seq_app, !map_app, Hd. cbn. rewrite Hr. reflexivity.
Qed.

Lemma credit_step_dense wallet wtx (parts : list TransactionRecord) txout :
  dense parts -> dense (credit_step ExtractAddress ToString wallet wtx parts txout).
Proof.
  intros Hd. rewrite credit_step_eq.
  destruct (IsMine_out wallet txout); [| exact Hd].
  apply dense_snoc; [exact Hd | reflexivity].
Qed.

Lemma debit_step_dense wallet wtx (st : list TransactionRecord * Z) txout :
  dense (fst st) -> dense (fst (debit_step ExtractAddress ToString wallet wtx st txout)).
Proof.
  destruct st as [parts fee]. cbn [fst]. intros Hd. unfold debit_step.
  destruct (IsMine_out wallet txout); [exact Hd |].
  destruct (fee >? 0); cbn [fst]; (apply dense_snoc; [exact Hd |]);
    case_match; reflexivity.
Qed.

Lemma fold_dense {A S : Type} (proj : S -> list TransactionRecord)
    (step : S -> A -> S) (l : list A) :
  (forall st x, dense (proj st) -> dense (proj (step st x))) ->
  forall st, dense (proj st) -> dense (proj (fold_left step l st)).
Proof.
  intros Hstep. induction l as [| x l IH]; intros st Hd; [exact Hd |].
  cbn [fold_left]. apply IH, Hstep, Hd.
Qed.

(** C7: in every branch the indices of the records of one transaction
    are 0, 1, ..., n-1 in list order. *)
Theorem decompose_idx_dense wallet wtx :
  map idx (decomposeTransaction ExtractAddress ToString wallet wtx)
  = map Z.of_nat
      (seq 0 (length (decomposeTransaction ExtractAddress ToString wallet wtx))).
Proof.
  change (dense (decomposeTransaction ExtractAddress ToString wallet wtx)).
  unfold decomposeTransaction.
  destruct (showTransaction wtx); [| reflexivity].
  destruct (IsCoinStake wtx); [reflexivity |].
  destruct ((nNet wtx >? 0) || IsCoinBase wtx).
  - apply (fold_dense (fun parts => parts)); [| reflexivity].
    intros parts txout. apply credit_step_dense.
  - destruct (fAllFromMe wallet wtx); cbn [andb].
    + destruct (fAllToMe wallet wtx); [reflexivity |].
      apply (fold_dense fst); [| reflexivity].
      intros st txout. apply debit_step_dense.
    + reflexivity.
Qed.

(** *** updateStatus *)

Lemma not_requested_true chain wtx :
  GetAdjustedTime chain - nTimeReceived wtx > 120 -> GetRequestCount wtx = 0 ->
  not_requested chain wtx = true.
Proof.
  intros Ht Hc. unfold not_requested. rewrite Hc.
  destruct (Z.gtb_spec (GetAdjustedTime chain - nTimeReceived wtx) (2 * 60));
    [reflexivity | lia].
Qed.

Lemma not_requested_false chain wtx :
  ~ (GetAdjustedTime chain - nTimeReceived wtx > 120 /\ GetRequestCount wtx = 0) ->
  not_requested chain wtx = false.
Proof.
  intros Hn. unfold not_requested.
  destruct (Z.gtb_spec (GetAdjustedTime chain - nTimeReceived wtx) (2 * 60));
    [| reflexivity].
  destruct (Z.eqb_spec (GetRequestCount wtx) 0); [| reflexivity].
  exfalso. apply Hn. lia.
Qed.

Lemma updateStatus_open_for_block chain wtx r :
  IsFinal wtx = false -> nLockTime wtx < LOCKTIME_THRESHOLD ->
  open_for (status (updateStatus LOCKTIME_THRESHOLD NumConfirmations chain wtx r))
  = (nBestHeight chain - nLockTime wtx) mod 2 ^ 32.
Proof.
  intros Hf Hl. unfold updateStatus. rewrite Hf. cbn [negb].
  destruct (Z.ltb_spec (nLockTime wtx) LOCKTIME_THRESHOLD); [| lia].
  repeat case_match; reflexivity.
Qed.

(** X19: the ladder of the status, as the code computes it.  Not final:
    OpenUntilBlock when the lock time is below LOCKTIME_THRESHOLD, with
    open_for = (nBestHeight - nLockTime) mod 2^32, which is
    nBestHeight - nLockTime when that difference is between 0 and 2^32;
    OpenUntilDate with open_for = nLockTime otherwise.  Final: Offline
    when more than 120 seconds have passed since the transaction was
    received and its request count is 0; otherwise Unconfirmed when the
    depth is below NumConfirmations, and HaveConfirmations when it is
    not. *)
Theorem updateStatus_lifecycle chain wtx r :
  let s := status (updateStatus LOCKTIME_THRESHOLD NumConfirmations chain wtx r) in
  let late :=
    GetAdjustedTime chain - nTimeReceived wtx > 120 /\ GetRequestCount wtx = 0 in
  (IsFinal wtx = false -> nLockTime wtx < LOCKTIME_THRESHOLD ->
     status_code s = OpenUntilBlock /\
     open_for s = (nBestHeight chain - nLockTime wtx) mod 2 ^ 32 /\
     (0 <= nBestHeight chain - nLockTime wtx < 2 ^ 32 ->
      open_for s = nBestHeight chain - nLockTime wtx)) /\
  (IsFinal wtx = false -> LOCKTIME_THRESHOLD <= nLockTime wtx ->
     status_code s = OpenUntilDate /\ open_for s = nLockTime wtx) /\
  (IsFinal wtx = true -> late -> status_code s = Offline) /\
  (IsFinal wtx = true -> ~ late -> GetDepthInMainChain wtx < NumConfirmations ->
     status_code s = Unconfirmed) /\
  (IsFinal wtx = true -> ~ late -> NumConfirmations <= GetDepthInMainChain wtx ->
     status_code s = HaveConfirmations).
Proof.
  intros s late. subst s late.
  split; [| split; [| split; [| split]]].
  - intros Hf Hl.
    pose proof (updateStatus_open_for_block chain wtx r Hf Hl) as Hopen.
    split; [| split; [exact Hopen |]].
    + unfold updateStatus. rewrite Hf. cbn [negb].
      destruct (Z.ltb_spec (nLockTime wtx) LOCKTIME_THRESHOLD); [| lia].
      repeat case_match; reflexivity.
    + intros Hrange. rewrite Hopen. apply Z.mod_small, Hrange.
  - unfold updateStatus. intros -> Hl. cbn [negb].
    destruct (Z.ltb_spec (nLockTime wtx) LOCKTIME_THRESHOLD); [lia |].
    split; repeat case_match; reflexivity.
  - unfold updateStatus. intros -> [Ht Hc]. cbn [negb].
    rewrite (not_requested_true chain wtx Ht Hc).
    repeat case_match; reflexivity.
  - unfold updateStatus. intros -> Hn Hd. cbn [negb].
    rewrite (not_requested_false chain wtx Hn).
    cbn [depth st_depth st_cur_num_blocks].
    destruct (Z.ltb_spec (GetDepthInMainChain wtx) NumConfirmations); [| lia].
    repeat case_match; reflexivity.
  - unfold updateStatus. intros -> Hn Hd. cbn [negb].
    rewrite (not_requested_false chain wtx Hn).
    cbn [depth st_depth st_cur_num_blocks].
    destruct (Z.ltb_spec (GetDepthInMainChain wtx) NumConfirmations); [lia |].
    repeat case_match; reflexivity.
Qed.

(** C9: for a record of kind Generated or StakeMint.  Credit of the
    transaction zero and transaction in the main chain: Immature, or
    MaturesWarning when more than 120 seconds have passed since the
    transaction was received and its request count is 0, and in both
    cases matures_in is the number of blocks to maturity; credit zero and
    not in the main chain: NotAccepted; credit not zero: Mature. *)
Theorem updateStatus_maturity chain wtx r :
  type r = Generated \/ type r = StakeMint ->
  let s := status (updateStatus LOCKTIME_THRESHOLD NumConfirmations chain wtx r) in
  let late :=
    GetAdjustedTime chain - nTimeReceived wtx > 120 /\ GetRequestCount wtx = 0 in
  (GetCredit wtx = 0 -> IsInMainChain wtx = true -> ~ late ->
     maturity s = Immature /\ matures_in s = GetBlocksToMaturity wtx) /\
  (GetCredit wtx = 0 -> IsInMainChain wtx = true -> late ->
     maturity s = MaturesWarning /\ matures_in s = GetBlocksToMaturity wtx) /\
  (GetCredit wtx = 0 -> IsInMainChain wtx = false -> maturity s = NotAccepted) /\
  (GetCredit wtx <> 0 -> maturity s = Mature).
Proof.
  intros Hty s late. subst s late.
  assert (is_generated (type r) = true) as Hgen.
  { unfold is_generated. destruct Hty as [-> | ->]; reflexivity. }
  unfold updateStatus. rewrite Hgen.
  split; [| split; [| split]].
  - intros -> -> Hn. rewrite (not_requested_false chain wtx Hn).
    change (0 =? 0) with true. cbv iota. split; repeat case_match; reflexivity.
  - intros -> -> [Ht Hc]. rewrite (not_requested_true chain wtx Ht Hc).
    change (0 =? 0) with true. cbv iota. split; repeat case_match; reflexivity.
  - intros -> ->. change (0 =? 0) with true. cbv iota.
    repeat case_match; reflexivity.
  - intros Hc. destruct (Z.eqb_spec (GetCredit wtx) 0); [contradiction |].
    cbv iota. repeat case_match; reflexivity.
Qed.

(** C10: updateStatus writes the status only: hash, idx, time, type,
    address, debit and credit of the record are what they were; and for a
    record that is neither Generated nor StakeMint the maturity of the
    status is what it was before the call. *)
Theorem updateStatus_frame chain wtx r :
  let r' := updateStatus LOCKTIME_THRESHOLD NumConfirmations chain wtx r in
  hash r' = hash r /\ idx r' = idx r /\ time r' = time r /\ type r' = type r /\
  address r' = address r /\ debit r' = debit r /\ credit r' = credit r /\
  (type r <> Generated -> type r <> StakeMint ->
     maturity (status r') = maturity (status r)).
Proof.
  intros r'. subst r'. unfold updateStatus.
  repeat (split; [reflexivity |]).
  intros Hg Hs.
  assert (is_generated (type r) = false) as ->.
  { unfold is_generated. rewrite !bool_decide_eq_false_2 by assumption. reflexivity. }
  cbv iota. repeat case_match; reflexivity.
Qed.

End Properties.

(** ** The properties on the transactions of [Scenario] *)

Import Scenario.

(** A transaction without a block and the same transaction in block 7, at
    height 100: the first key is above the second. *)
Lemma sortKey_unconfirmed_above_confirmed_witness :
  mapBlockIndex chain !! hashBlock base_tx = None /\
  mapBlockIndex chain !! hashBlock (in_block 7 1 base_tx)
    = Some (Some (mkBlockIndex 100)) /\
  nHeight (mkBlockIndex 100) < INT_MAX /\
  String.compare
    (sortKey (status (updateStatus LOCKTIME_THRESHOLD NumConfirmations chain
                        base_tx a_record)))
    (sortKey (status (updateStatus LOCKTIME_THRESHOLD NumConfirmations chain
                        (in_block 7 1 base_tx) a_record)))
  = Gt.
Proof.
  assert (mapBlockIndex chain !! hashBlock base_tx = None) as H1
    by (vm_compute; reflexivity).
  assert (mapBlockIndex chain !! hashBlock (in_block 7 1 base_tx)
          = Some (Some (mkBlockIndex 100))) as H2 by (vm_compute; reflexivity).
  assert (nHeight (mkBlockIndex 100) < INT_MAX) as H3 by (vm_compute; reflexivity).
  split; [exact H1 |]. split; [exact H2 |]. split; [exact H3 |].
  exact (sortKey_unconfirmed_above_confirmed LOCKTIME_THRESHOLD NumConfirmations
           chain base_tx (in_block 7 1 base_tx) a_record a_record
           (mkBlockIndex 100) H1 H2 H3).
Defined.

(** The same two transactions against C1 as the specification words it:
    the key of the transaction without a block is not below the other. *)
Lemma sortKey_unconfirmed_not_below_confirmed :
  mapBlockIndex chain !! hashBlock base_tx = None /\
  mapBlockIndex chain !! hashBlock (in_block 7 1 base_tx)
    = Some (Some (mkBlockIndex 100)) /\
  sortKey (status (update base_tx a_record)) = "2147483647-0-1700000000-000"%string /\
  sortKey (status (update (in_block 7 1 base_tx) a_record))
    = "0000000100-0-1700000000-000"%string /\
  String.compare (sortKey (status (update base_tx a_record)))
                 (sortKey (status (update (in_block 7 1 base_tx) a_record)))
  <> Lt.
Proof.
  repeat split; try (vm_compute; reflexivity).
  vm_compute. discriminate.
Qed.

(** A generated transaction in the newest block is hidden. *)
Lemma showTransaction_hides_young_coinbase_witness :
  IsCoinBase (reward_tx 1) = true /\
  GetDepthInMainChain (reward_tx 1) < 2 /\
  showTransaction (reward_tx 1) = false /\
  decomposeTransaction ExtractAddress ToString wallet (reward_tx 1) = [].
Proof.
  assert (IsCoinBase (reward_tx 1) = true) as H1 by reflexivity.
  assert (GetDepthInMainChain (reward_tx 1) < 2) as H2 by (vm_compute; reflexivity).
  split; [exact H1 |]. split; [exact H2 |].
  exact (proj1 (showTransaction_hides_young_coinbase ExtractAddress ToString
                  wallet (reward_tx 1)) H1 H2).
Defined.

(** C2 as the specification words it fails on a coinstake: in no block yet,
    it is shown and decomposes into one StakeMint record. *)
Lemma young_coinstake_is_shown :
  IsCoinStake stake_tx = true /\
  GetDepthInMainChain stake_tx < 2 /\
  showTransaction stake_tx = true /\
  decompose stake_tx
    = [TransactionRecord_make 42 1700000000 StakeMint "" (-1000) 1010] /\
  decompose stake_tx <> [].
Proof.
  repeat split; try (vm_compute; reflexivity).
  vm_compute. discriminate.
Qed.

(** The generated transaction, two blocks deep: two Generated records with
    credits 100 and 200. *)
Lemma decompose_credit_records_witness :
  showTransaction (reward_tx 2) = true /\
  IsCoinStake (reward_tx 2) = false /\
  Int64.in_range (GetCredit (reward_tx 2) - GetDebit (reward_tx 2)) /\
  (0 < GetCredit (reward_tx 2) - GetDebit (reward_tx 2)
   \/ IsCoinBase (reward_tx 2) = true) /\
  length (decompose (reward_tx 2)) = 2%nat /\
  (exists r, decompose (reward_tx 2) !! 0%nat = Some r /\
             credit r = 100 /\ type r = Generated) /\
  (exists r, decompose (reward_tx 2) !! 1%nat = Some r /\
             credit r = 200 /\ type r = Generated).
Proof.
  assert (showTransaction (reward_tx 2) = true) as H1 by reflexivity.
  assert (IsCoinStake (reward_tx 2) = false) as H2 by reflexivity.
  assert (Int64.in_range (GetCredit (reward_tx 2) - GetDebit (reward_tx 2))) as H3
    by (vm_compute; split; [discriminate | reflexivity]).
  assert (0 < GetCredit (reward_tx 2) - GetDebit (reward_tx 2)
          \/ IsCoinBase (reward_tx 2) = true) as H4 by (right; reflexivity).
  pose proof (decompose_credit_records ExtractAddress ToString wallet (reward_tx 2)
                H1 H2 H3 H4) as [Hlen Hrec].
  split; [exact H1 |]. split; [exact H2 |]. split; [exact H3 |]. split; [exact H4 |].
  split; [exact Hlen |]. split.
  - destruct (Hrec 0%nat (mkTxOut 100 "mA") eq_refl) as (r & Hr & Hc & Hg & _).
    exists r. split; [exact Hr |]. split; [exact Hc | exact (Hg eq_refl)].
  - destruct (Hrec 1%nat (mkTxOut 200 "mB") eq_refl) as (r & Hr & Hc & Hg & _).
    exists r. split; [exact Hr |]. split; [exact Hc | exact (Hg eq_refl)].
Defined.

Lemma send_tx_amounts_ok : amounts_ok send_tx.
Proof.
  unfold amounts_ok, amount_ok. cbn.
  repeat split; try lia. repeat constructor; cbn; lia.
Defined.

(** One foreign output of 500 and a fee of 10, paid by the wallet: one
    SendToAddress record with debit -510. *)
Lemma decompose_debit_records_witness :
  showTransaction send_tx = true /\
  IsCoinStake send_tx = false /\
  IsCoinBase send_tx = false /\
  amounts_ok send_tx /\
  GetCredit send_tx - GetDebit send_tx <= 0 /\
  forallb (IsMine_in wallet) (vin send_tx) = true /\
  forallb (IsMine_out wallet) (vout send_tx) = false /\
  0 <= GetDebit send_tx - GetValueOut send_tx /\
  length (decompose send_tx) = 1%nat /\
  exists r, decompose send_tx !! 0%nat = Some r /\
            debit r = -510 /\ type r = SendToAddress /\ address r = "xB"%string.
Proof.
  assert (showTransaction send_tx = true) as H1 by reflexivity.
  assert (IsCoinStake send_tx = false) as H2 by reflexivity.
  assert (IsCoinBase send_tx = false) as H3 by reflexivity.
  pose proof send_tx_amounts_ok as H4.
  assert (GetCredit send_tx - GetDebit send_tx <= 0) as H5 by (cbn; lia).
  assert (forallb (IsMine_in wallet) (vin send_tx) = true) as H6 by reflexivity.
  assert (forallb (IsMine_out wallet) (vout send_tx) = false) as H7 by reflexivity.
  assert (0 <= GetDebit send_tx - GetValueOut send_tx) as H8 by (cbn; lia).
  pose proof (decompose_debit_records ExtractAddress ToString wallet send_tx
                H1 H2 H3 H4 H5 H6 H7 H8) as [Hlen Hrec].
  do 8 (split; [assumption |]).
  split; [exact Hlen |].
  destruct (Hrec 0%nat (mkTxOut 500 "xB") eq_refl) as (r & Hr & Hd & Ha & _).
  exists r. split; [exact Hr |]. split; [exact Hd |]. exact (Ha "xB"%string eq_refl).
Defined.

Lemma self_tx_amounts_ok : amounts_ok self_tx.
Proof.
  unfold amounts_ok, amount_ok. cbn.
  repeat split; try lia. repeat constructor; cbn; lia.
Defined.

(** Debit 1000, credit 990, change 990: one SendToSelf record with
    debit -10 and credit 0. *)
Lemma decompose_send_to_self_witness :
  showTransaction self_tx = true /\
  IsCoinStake self_tx = false /\
  IsCoinBase self_tx = false /\
  amounts_ok self_tx /\
  GetCredit self_tx - GetDebit self_tx <= 0 /\
  forallb (IsMine_in wallet) (vin self_tx) = true /\
  forallb (IsMine_out wallet) (vout self_tx) = true /\
  exists r, decompose self_tx = [r] /\ type r = SendToSelf /\
            address r = EmptyString /\ debit r = -10 /\ credit r = 0.
Proof.
  assert (showTransaction self_tx = true) as H1 by reflexivity.
  assert (IsCoinStake self_tx = false) as H2 by reflexivity.
  assert (IsCoinBase self_tx = false) as H3 by reflexivity.
  pose proof self_tx_amounts_ok as H4.
  assert (GetCredit self_tx - GetDebit self_tx <= 0) as H5 by (cbn; lia).
  assert (forallb (IsMine_in wallet) (vin self_tx) = true) as H6 by reflexivity.
  assert (forallb (IsMine_out wallet) (vout self_tx) = true) as H7 by reflexivity.
  do 7 (split; [assumption |]).
  exact (decompose_send_to_self ExtractAddress ToString wallet self_tx
           H1 H2 H3 H4 H5 H6 H7).
Defined.

(** Inputs of two owners, net value -50: one Other record with debit -50
    and credit 0. *)
Lemma decompose_mixed_witness :
  showTransaction mixed_tx = true /\
  IsCoinStake mixed_tx = false /\
  IsCoinBase mixed_tx = false /\
  Int64.in_range (GetCredit mixed_tx - GetDebit mixed_tx) /\
  GetCredit mixed_tx - GetDebit mixed_tx <= 0 /\
  forallb (IsMine_in wallet) (vin mixed_tx) = false /\
  forallb (IsMine_out wallet) (vout mixed_tx) = false /\
  exists r, decompose mixed_tx = [r] /\ type r = Other /\
            address r = EmptyString /\ debit r = -50 /\ credit r = 0.
Proof.
  assert (showTransaction mixed_tx = true) as H1 by reflexivity.
  assert (IsCoinStake mixed_tx = false) as H2 by reflexivity.
  assert (IsCoinBase mixed_tx = false) as H3 by reflexivity.
  assert (Int64.in_range (GetCredit mixed_tx - GetDebit mixed_tx)) as H4
    by (vm_compute; split; [discriminate | reflexivity]).
  assert (GetCredit mixed_tx - GetDebit mixed_tx <= 0) as H5 by (cbn; lia).
  assert (forallb (IsMine_in wallet) (vin mixed_tx) = false) as H6 by reflexivity.
  assert (forallb (IsMine_out wallet) (vout mixed_tx) = false) as H7 by reflexivity.
  do 7 (split; [assumption |]).
  exact (decompose_mixed ExtractAddress ToString wallet mixed_tx
           H1 H2 H3 H4 H5 H6 H7).
Defined.

(** Not final, lock time 90 below the threshold, best height 100:
    OpenUntilBlock with open_for = 10. *)
Lemma updateStatus_lifecycle_witness :
  IsFinal (locked 90 base_tx) = false /\
  nLockTime (locked 90 base_tx) < LOCKTIME_THRESHOLD /\
  0 <= nBestHeight chain - nLockTime (locked 90 base_tx) < 2 ^ 32 /\
  status_code (status (updateStatus LOCKTIME_THRESHOLD NumConfirmations chain
                         (locked 90 base_tx) a_record)) = OpenUntilBlock /\
  open_for (status (updateStatus LOCKTIME_THRESHOLD NumConfirmations chain
                      (locked 90 base_tx) a_record)) = 10.
Proof.
  assert (IsFinal (locked 90 base_tx) = false) as H1 by reflexivity.
  assert (nLockTime (locked 90 base_tx) < LOCKTIME_THRESHOLD) as H2
    by (vm_compute; reflexivity).
  assert (0 <= nBestHeight chain - nLockTime (locked 90 base_tx) < 2 ^ 32) as H3
    by (vm_compute; split; [discriminate | reflexivity]).
  split; [exact H1 |]. split; [exact H2 |]. split; [exact H3 |].
  destruct (proj1 (updateStatus_lifecycle LOCKTIME_THRESHOLD NumConfirmations chain
                     (locked 90 base_tx) a_record) H1 H2) as (Hs & _ & Hexact).
  split; [exact Hs | exact (Hexact H3)].
Defined.

(** C8: the claim gives open_for = currentHeight - lockValue for a
    transaction that is not final and whose lock value is below the
    threshold.  The code subtracts the unsigned lock time from the height
    in unsigned 32-bit arithmetic: at best height 100 with lock time 110
    the status is OpenUntilBlock, as the claim says, but open_for is
    4294967286 (2^32 - 10) and not 100 - 110 = -10. *)
Theorem updateStatus_open_for_wraps :
  let s := status (updateStatus LOCKTIME_THRESHOLD NumConfirmations chain
                     (locked 110 base_tx) a_record) in
  IsFinal (locked 110 base_tx) = false /\
  nLockTime (locked 110 base_tx) < LOCKTIME_THRESHOLD /\
  nBestHeight chain = 100 /\
  nLockTime (locked 110 base_tx) = 110 /\
  status_code s = OpenUntilBlock /\
  open_for s = 4294967286 /\
  open_for s <> nBestHeight chain - nLockTime (locked 110 base_tx).
Proof.
  cbv zeta. repeat split; try (vm_compute; reflexivity).
  vm_compute. discriminate.
Qed.

(** The Generated record of a reward three blocks deep, received a minute
    ago: Immature, 517 blocks to go. *)
Lemma updateStatus_maturity_witness :
  type (set_type Generated a_record) = Generated /\
  GetCredit (reward_tx 3) = 0 /\
  IsInMainChain (reward_tx 3) = true /\
  ~ (GetAdjustedTime chain - nTimeReceived (reward_tx 3) > 120
     /\ GetRequestCount (reward_tx 3) = 0) /\
  maturity (status (updateStatus LOCKTIME_THRESHOLD NumConfirmations chain
                      (reward_tx 3) (set_type Generated a_record))) = Immature /\
  matures_in (status (updateStatus LOCKTIME_THRESHOLD NumConfirmations chain
                        (reward_tx 3) (set_type Generated a_record))) = 517.
Proof.
  assert (type (set_type Generated a_record) = Generated) as H1 by reflexivity.
  assert (GetCredit (reward_tx 3) = 0) as H2 by reflexivity.
  assert (IsInMainChain (reward_tx 3) = true) as H3 by (vm_compute; reflexivity).
  assert (~ (GetAdjustedTime chain - nTimeReceived (reward_tx 3) > 120
             /\ GetRequestCount (reward_tx 3) = 0)) as H4
    by (intros [Ht _]; vm_compute in Ht; discriminate Ht).
  split; [exact H1 |]. split; [exact H2 |]. split; [exact H3 |]. split; [exact H4 |].
  exact (proj1 (updateStatus_maturity LOCKTIME_THRESHOLD NumConfirmations chain
                  (reward_tx 3) (set_type Generated a_record) (or_introl H1))
           H2 H3 H4).
Defined.

(** A record of kind Other keeps its maturity, here the one it was built
    with. *)
Lemma updateStatus_frame_witness :
  type a_record <> Generated /\
  type a_record <> StakeMint /\
  maturity (status (updateStatus LOCKTIME_THRESHOLD NumConfirmations chain
                      (reward_tx 3) a_record))
  = maturity (status a_record).
Proof.
  assert (type a_record <> Generated) as H1 by discriminate.
  assert (type a_record <> StakeMint) as H2 by discriminate.
  split; [exact H1 |]. split; [exact H2 |].
  destruct (updateStatus_frame LOCKTIME_THRESHOLD NumConfirmations chain
              (reward_tx 3) a_record) as (_ & _ & _ & _ & _ & _ & _ & Hm).
  exact (Hm H1 H2).
Defined.

(** The indices of the records of the three-output payment below. *)
Example decompose_idx_dense_example :
  map idx (decompose (with_amounts 490 1020 490 1010 [my_input]
                        [mkTxOut 500 "xB"; mkTxOut 490 "mChange"; mkTxOut 20 ""]
                        base_tx))
  = [0; 1].
Proof. reflexivity. Qed.

(** A payment of 70 received on an address of the wallet; the output of the
    sender is passed over. *)
Example decompose_recv_example :
  decompose recv_tx
  = [set_address "mA" (set_type RecvWithAddress
       (set_credit 70 (TransactionRecord_new 42 1700000000)))].
Proof. reflexivity. Qed.

(** ** More on the formatting *)

Module KeyFacts.
Import Printf PrintfFacts.

Lemma app_empty_r (s : string) : s +:+ "" = s.
Proof.
  induction s as [| c s IH]; [reflexivity |]. rewrite app_String, IH. reflexivity.
Qed.

Lemma app_inv_head (p s t : string) : p +:+ s = p +:+ t -> s = t.
Proof.
  induction p as [| c p IH]; [intros H; exact H |].
  rewrite !app_String. intros H. injection H as H. apply IH, H.
Qed.

Lemma ascii_compare_refl (c : ascii) : Ascii.compare c c = Eq.
Proof. unfold Ascii.compare. apply N.compare_refl. Qed.

Lemma compare_refl (s : string) : String.compare s s = Eq.
Proof.
  induction s as [| c s IH]; [reflexivity |].
  cbn [String.compare]. rewrite ascii_compare_refl. exact IH.
Qed.

(** A common beginning does not decide a comparison. *)
Lemma compare_app_prefix (p s t : string) :
  String.compare (p +:+ s) (p +:+ t) = String.compare s t.
Proof.
  induction p as [| c p IH]; [reflexivity |].
  rewrite !app_String. cbn [String.compare]. rewrite ascii_compare_refl. exact IH.
Qed.

Lemma zeros_length (k : nat) : String.length (zeros k) = k.
Proof. induction k as [| k IH]; [reflexivity |]. cbn. rewrite IH. reflexivity. Qed.

Lemma zeros_app (a b : nat) : zeros a +:+ zeros b = zeros (a + b).
Proof.
  induction a as [| a IH]; [reflexivity |].
  cbn [zeros Nat.add]. rewrite app_String, IH. reflexivity.
Qed.

Lemma fixed_length (w : nat) : forall n, String.length (fixed w n) = w.
Proof.
  induction w as [| w IH]; intros n; [reflexivity |].
  cbn [fixed String.length]. rewrite IH. reflexivity.
Qed.

Lemma zero_pad_length (w : nat) (s : string) :
  String.length (zero_pad w s) = Nat.max w (String.length s).
Proof. unfold zero_pad. rewrite app_length, zeros_length. lia. Qed.

(** Padding to a width and then to a larger one is padding to the larger. *)
Lemma zero_pad_zero_pad (w W : nat) (s : string) :
  (w <= W)%nat -> (String.length s <= W)%nat ->
  zero_pad W (zero_pad w s) = zero_pad W s.
Proof.
  intros Hw Hs. unfold zero_pad at 1. rewrite zero_pad_length.
  unfold zero_pad. rewrite <- app_assoc, zeros_app. f_equal. f_equal. lia.
Qed.

Lemma utoa_length_le (W : nat) (n : Z) :
  (1 <= W)%nat -> 0 <= n < 10 ^ Z.of_nat W -> (String.length (utoa n) <= W)%nat.
Proof.
  intros HW Hn.
  pose proof (f_equal String.length (zero_pad_utoa W n HW Hn)) as H.
  rewrite zero_pad_length, fixed_length in H. lia.
Qed.

Lemma fixed_inj (W : nat) (a b : Z) :
  0 <= a < 10 ^ Z.of_nat W -> 0 <= b < 10 ^ Z.of_nat W ->
  fixed W a = fixed W b -> a = b.
Proof.
  intros Ha Hb Heq.
  destruct (Z.lt_trichotomy a b) as [Hlt | [Heq' | Hgt]]; [| exact Heq' |].
  - pose proof (fixed_compare_lt W a b "" "" Ha Hb Hlt) as H.
    rewrite Heq, compare_refl in H. discriminate H.
  - pose proof (fixed_compare_lt W b a "" "" Hb Ha ltac:(lia)) as H.
    rewrite Heq, compare_refl in H. discriminate H.
Qed.

(** A width that holds a given number. *)
Lemma width_for (n : Z) :
  0 <= n -> n < 10 ^ Z.of_nat (S (Z.to_nat (Z.log2 n))).
Proof.
  intros Hn. pose proof (utoa_fuel n Hn) as H.
  eapply Z.lt_le_trans; [exact H |].
  apply Z.pow_le_mono_l. lia.
Qed.

Lemma pow10_mono (a b : nat) : (a <= b)%nat -> 10 ^ Z.of_nat a <= 10 ^ Z.of_nat b.
Proof. intros H. apply Z.pow_le_mono_r; lia. Qed.

(** The conversion with the 0 flag tells numbers that are not negative
    apart, whatever the width. *)
Lemma zero_pad_utoa_inj (w : nat) (a b : Z) :
  0 <= a -> 0 <= b -> zero_pad w (utoa a) = zero_pad w (utoa b) -> a = b.
Proof.
  intros Ha Hb Heq.
  set (W := Nat.max w (Nat.max (S (Z.to_nat (Z.log2 a))) (S (Z.to_nat (Z.log2 b))))).
  assert (0 <= a < 10 ^ Z.of_nat W) as HaW.
  { split; [exact Ha |]. eapply Z.lt_le_trans; [apply width_for, Ha |].
    apply pow10_mono. lia. }
  assert (0 <= b < 10 ^ Z.of_nat W) as HbW.
  { split; [exact Hb |]. eapply Z.lt_le_trans; [apply width_for, Hb |].
    apply pow10_mono. lia. }
  assert (1 <= W)%nat as HW by lia.
  apply (fixed_inj W a b HaW HbW).
  rewrite <- (zero_pad_utoa W a HW HaW), <- (zero_pad_utoa W b HW HbW).
  rewrite <- (zero_pad_zero_pad w W (utoa a)), <- (zero_pad_zero_pad w W (utoa b));
    try lia; try (apply utoa_length_le; assumption).
  rewrite Heq. reflexivity.
Qed.

Lemma fmt_0d_inj (w : nat) (a b : Z) :
  0 <= a -> 0 <= b -> fmt_0d w a = fmt_0d w b -> a = b.
Proof.
  intros Ha Hb. unfold fmt_0d.
  destruct (Z.ltb_spec a 0); [lia |]. destruct (Z.ltb_spec b 0); [lia |].
  apply zero_pad_utoa_inj; assumption.
Qed.

Lemma fmt_0u_fixed (t : Z) : fmt_0u 10 t = fixed 10 (t mod 2 ^ 32).
Proof.
  unfold fmt_0u. apply zero_pad_utoa; [lia |].
  pose proof (Z.mod_pos_bound t (2 ^ 32) ltac:(lia)). simpl. lia.
Qed.

End KeyFacts.

(** ** Further properties of decomposeTransaction *)

Section Decomposition.

Context {CScript CBitcoinAddress : Type}.
Variable ExtractAddress : CScript -> option CBitcoinAddress.
Variable ToString : CBitcoinAddress -> string.

Implicit Types (wallet : CWallet (CScript := CScript)
                                 (CBitcoinAddress := CBitcoinAddress))
               (wtx : CWalletTx (CScript := CScript))
               (txout : CTxOut (CScript := CScript))
               (r : TransactionRecord).

(** What one iteration of the debit loop does, whatever the amounts are:
    nothing for an output of the wallet, and otherwise one more record, of
    the kind of the output, with credit 0 and the next index. *)
Lemma debit_step_cases wallet wtx (parts : list TransactionRecord) (fee : Z) txout :
  (IsMine_out wallet txout = true /\
   debit_step ExtractAddress ToString wallet wtx (parts, fee) txout = (parts, fee))
  \/
  (IsMine_out wallet txout = false /\
   exists d fee',
     debit_step ExtractAddress ToString wallet wtx (parts, fee) txout
     = (parts ++ [mkRecord (GetHash wtx) (GetTxTime wtx)
                    (fst (send_kind ExtractAddress ToString wtx txout))
                    (snd (send_kind ExtractAddress ToString wtx txout))
                    d 0 (Z.of_nat (length parts)) TransactionStatus_new],
        fee')).
Proof.
  unfold debit_step, send_kind.
  destruct (IsMine_out wallet txout); [left; split; reflexivity | right].
  split; [reflexivity |].
  destruct (fee >? 0); destruct (ExtractAddress (scriptPubKey txout));
    do 2 eexists; reflexivity.
Qed.

Lemma debit_fold_Forall wallet wtx (P : TransactionRecord -> Prop) :
  (forall (k : nat) txout d,
     P (mkRecord (GetHash wtx) (GetTxTime wtx)
          (fst (send_kind ExtractAddress ToString wtx txout))
          (snd (send_kind ExtractAddress ToString wtx txout))
          d 0 (Z.of_nat k) TransactionStatus_new)) ->
  forall (outs : list CTxOut) (parts : list TransactionRecord) (fee : Z),
    Forall P parts ->
    Forall P (fst (fold_left (debit_step ExtractAddress ToString wallet wtx)
                             outs (parts, fee))).
Proof.
  intros HP. induction outs as [| txout outs IH]; intros parts fee Hparts.
  - exact Hparts.
  - cbn [fold_left].
    destruct (debit_step_cases wallet wtx parts fee txout)
      as [[_ ->] | [_ (d & fee' & ->)]].
    + apply IH, Hparts.
    + apply IH. apply Forall_app. split; [exact Hparts |].
      constructor; [apply HP | constructor].
Qed.

Lemma debit_fold_length wallet wtx (outs : list CTxOut) :
  forall (parts : list TransactionRecord) (fee : Z),
    length (fst (fold_left (debit_step ExtractAddress ToString wallet wtx)
                           outs (parts, fee)))
    = (length parts
       + length (List.filter (fun txout => negb (IsMine_out wallet txout)) outs))%nat.
Proof.
  induction outs as [| txout outs IH]; intros parts fee.
  - cbn. lia.
  - cbn [fold_left List.filter].
    destruct (debit_step_cases wallet wtx parts fee txout)
      as [[Hm ->] | [Hm (d & fee' & ->)]]; rewrite Hm; cbn [negb].
    + apply IH.
    + rewrite IH, length_app. cbn [length]. lia.
Qed.

Lemma credit_records_Forall wallet wtx (P : TransactionRecord -> Prop) :
  (forall (k : nat) txout,
     P (credit_record ExtractAddress ToString wallet wtx k txout)) ->
  forall (outs : list CTxOut) (k : nat),
    Forall P (credit_records ExtractAddress ToString wallet wtx k outs).
Proof.
  intros HP. induction outs as [| txout outs IH]; intros k; constructor.
  - apply HP.
  - apply IH.
Qed.

(** A property of every record that any branch can build holds for all the
    records of a transaction. *)
Lemma decompose_Forall wallet wtx (P : TransactionRecord -> Prop) :
  (IsCoinStake wtx = true ->
   P (TransactionRecord_make (GetHash wtx) (GetTxTime wtx) StakeMint ""
        (Int64.neg (GetDebit wtx)) (GetValueOut wtx))) ->
  (IsCoinStake wtx = false ->
   forall (k : nat) txout,
     P (credit_record ExtractAddress ToString wallet wtx k txout)) ->
  (IsCoinStake wtx = false -> IsCoinBase wtx = false -> nNet wtx <= 0 ->
   P (TransactionRecord_make (GetHash wtx) (GetTxTime wtx) SendToSelf ""
        (Int64.neg (Int64.sub (GetDebit wtx) (GetChange wtx)))
        (Int64.sub (GetCredit wtx) (GetChange wtx)))) ->
  (IsCoinStake wtx = false -> IsCoinBase wtx = false -> nNet wtx <= 0 ->
   forall (k : nat) txout d,
     P (mkRecord (GetHash wtx) (GetTxTime wtx)
          (fst (send_kind ExtractAddress ToString wtx txout))
          (snd (send_kind ExtractAddress ToString wtx txout))
          d 0 (Z.of_nat k) TransactionStatus_new)) ->
  (IsCoinStake wtx = false -> IsCoinBase wtx = false -> nNet wtx <= 0 ->
   P (TransactionRecord_make (GetHash wtx) (GetTxTime wtx) Other ""
        (nNet wtx) 0)) ->
  Forall P (decomposeTransaction ExtractAddress ToString wallet wtx).
Proof.
  intros Hstake Hcredit Hself Hdebit Hother. unfold decomposeTransaction.
  destruct (showTransaction wtx); [| constructor].
  destruct (IsCoinStake wtx).
  { constructor; [apply Hstake; reflexivity | constructor]. }
  destruct ((nNet wtx >? 0) || IsCoinBase wtx) eqn:Htest.
  { rewrite credit_fold. apply credit_records_Forall, Hcredit. reflexivity. }
  apply orb_false_elim in Htest as [Hnet Hcb].
  assert (nNet wtx <= 0) as Hle
    by (destruct (Z.gtb_spec (nNet wtx) 0); [discriminate | assumption]).
  destruct (fAllFromMe wallet wtx); cbn [andb].
  - destruct (fAllToMe wallet wtx).
    + constructor; [apply Hself; auto | constructor].
    + apply debit_fold_Forall; [apply Hdebit; auto | constructor].
  - constructor; [apply Hother; auto | constructor].
Qed.

(** X1: a shown coinstake gives exactly one record, whoever owns its
    inputs and outputs and whatever its net value is: StakeMint, with empty
    counterparty, index 0, the debit of the transaction negated (when that
    fits in int64) as debit and the value out as credit. *)
Theorem decompose_coinstake wallet wtx :
  showTransaction wtx = true ->
  IsCoinStake wtx = true ->
  Int64.in_range (- GetDebit wtx) ->
  exists r,
    decomposeTransaction ExtractAddress ToString wallet wtx = [r] /\
    type r = StakeMint /\ address r = EmptyString /\ idx r = 0 /\
    debit r = - GetDebit wtx /\ credit r = GetValueOut wtx.
Proof.
  intros Hshow Hstake Hr. unfold decomposeTransaction. rewrite Hshow, Hstake.
  eexists. split; [reflexivity |].
  cbn [type address idx debit credit TransactionRecord_make].
  rewrite Int64Facts.neg_exact by exact Hr. repeat split.
Qed.

(** X2: every record of a transaction carries the hash and the time of that
    transaction. *)
Theorem decompose_hash_time wallet wtx :
  Forall (fun r => hash r = GetHash wtx /\ time r = GetTxTime wtx)
         (decomposeTransaction ExtractAddress ToString wallet wtx).
Proof. apply decompose_Forall; intros; split; reflexivity. Qed.

(** X3: the kinds for rewards are given to rewards only.  A record is
    StakeMint exactly when its transaction is a coinstake, and Generated
    exactly when its transaction is a coinbase and not a coinstake. *)
Theorem decompose_reward_kinds wallet wtx :
  Forall (fun r =>
            (type r = StakeMint <-> IsCoinStake wtx = true) /\
            (type r = Generated <->
             IsCoinStake wtx = false /\ IsCoinBase wtx = true))
         (decomposeTransaction ExtractAddress ToString wallet wtx).
Proof.
  apply decompose_Forall.
  - intros Hs. cbn [type TransactionRecord_make]. rewrite Hs.
    intuition congruence.
  - intros Hs k txout. unfold credit_record, recv_kind. cbn [type]. rewrite Hs.
    repeat case_match; cbn [fst]; intuition congruence.
  - intros Hs Hc _. cbn [type TransactionRecord_make]. rewrite Hs, Hc.
    intuition congruence.
  - intros Hs Hc _ k txout d. unfold send_kind. cbn [type]. rewrite Hs, Hc.
    repeat case_match; cbn [fst]; intuition congruence.
  - intros Hs Hc _. cbn [type TransactionRecord_make]. rewrite Hs, Hc.
    intuition congruence.
Qed.

(** X4: a record of kind Other never has a positive debit: its debit is
    the int64 net value of a transaction that did not pass the test
    nNet > 0; its credit is 0 and its counterparty is empty. *)
Theorem decompose_other_debit wallet wtx :
  Forall (fun r => type r = Other ->
                   debit r = nNet wtx /\ debit r <= 0 /\ credit r = 0 /\
                   address r = EmptyString)
         (decomposeTransaction ExtractAddress ToString wallet wtx).
Proof.
  apply decompose_Forall.
  - intros _ Hty. discriminate Hty.
  - intros _ k txout. unfold credit_record, recv_kind. cbn [type].
    repeat case_match; cbn [fst]; congruence.
  - intros _ _ _ Hty. discriminate Hty.
  - intros _ _ _ k txout d. unfold send_kind. cbn [type].
    repeat case_match; cbn [fst]; congruence.
  - intros _ _ Hle _. cbn [debit credit address TransactionRecord_make].
    repeat split. exact Hle.
Qed.

(** X5: records are one-sided by kind.  A record for something received
    (Generated, RecvWithAddress, RecvFromOther) has debit 0 and a record
    for something sent to others (SendToAddress, SendToOther) has
    credit 0. *)
Theorem decompose_one_sided wallet wtx :
  Forall (fun r =>
            (type r = Generated \/ type r = RecvWithAddress \/
             type r = RecvFromOther -> debit r = 0) /\
            (type r = SendToAddress \/ type r = SendToOther -> credit r = 0))
         (decomposeTransaction ExtractAddress ToString wallet wtx).
Proof.
  apply decompose_Forall.
  - intros _. cbn [type TransactionRecord_make]. intuition congruence.
  - intros _ k txout. split; [reflexivity |]. unfold credit_record, recv_kind.
    cbn [type credit]. repeat case_match; cbn [fst]; intuition congruence.
  - intros _ _ _. cbn [type TransactionRecord_make]. intuition congruence.
  - intros _ _ _ k txout d. split; [| reflexivity]. unfold send_kind.
    cbn [type debit]. repeat case_match; cbn [fst]; intuition congruence.
  - intros _ _ _. cbn [type TransactionRecord_make]. intuition congruence.
Qed.

Lemma filter_length_bound {A : Type} (f : A -> bool) (l : list A) :
  (length (List.filter f l) <= length l)%nat.
Proof.
  induction l as [| x l IH]; [reflexivity |].
  cbn [List.filter]. destruct (f x); cbn [length]; lia.
Qed.

Lemma forallb_false_filter {A : Type} (f : A -> bool) (l : list A) :
  forallb f l = false -> List.filter (fun x => negb (f x)) l <> [].
Proof.
  induction l as [| x l IH]; [discriminate |].
  cbn [forallb List.filter]. destruct (f x); cbn [andb negb]; [exact IH | discriminate].
Qed.

(** X6: a transaction never gives more records than it has outputs, the
    single record of the coinstake, self-payment and mixed branches
    apart. *)
Theorem decompose_length_bound wallet wtx :
  (length (decomposeTransaction ExtractAddress ToString wallet wtx)
   <= Nat.max 1 (length (vout wtx)))%nat.
Proof.
  unfold decomposeTransaction.
  destruct (showTransaction wtx); [| cbn; lia].
  destruct (IsCoinStake wtx); [cbn; lia |].
  destruct ((nNet wtx >? 0) || IsCoinBase wtx).
  - rewrite credit_fold. cbn [app length]. rewrite credit_records_length.
    pose proof (filter_length_bound (IsMine_out wallet) (vout wtx)). lia.
  - destruct (fAllFromMe wallet wtx); cbn [andb]; [| cbn; lia].
    destruct (fAllToMe wallet wtx); [cbn; lia |].
    rewrite debit_fold_length. cbn [length].
    pose proof (filter_length_bound (fun txout => negb (IsMine_out wallet txout))
                  (vout wtx)). lia.
Qed.

(** X7: when a transaction gives no record.  Either it is not shown, or it
    is in the credit branch (not a coinstake, and int64 net value positive
    or coinbase) and none of its outputs is the wallet's.  The coinstake,
    self-payment, debit and mixed branches always give a record. *)
Theorem decompose_nil_iff wallet wtx :
  decomposeTransaction ExtractAddress ToString wallet wtx = [] <->
  showTransaction wtx = false \/
  (IsCoinStake wtx = false /\
   (0 < nNet wtx \/ IsCoinBase wtx = true) /\
   List.filter (IsMine_out wallet) (vout wtx) = []).
Proof.
  unfold decomposeTransaction.
  destruct (showTransaction wtx); [| split; [left; reflexivity | reflexivity]].
  destruct (IsCoinStake wtx).
  { split; [discriminate | intros [H | (H & _)]; discriminate H]. }
  destruct ((nNet wtx >? 0) || IsCoinBase wtx) eqn:Htest.
  - rewrite credit_fold. cbn [app length]. split.
    + intros Hnil. right. split; [reflexivity |]. split.
      * apply orb_true_iff in Htest as [Hn | Hc]; [left | right; exact Hc].
        destruct (Z.gtb_spec (nNet wtx) 0); [lia | discriminate].
      * destruct (List.filter (IsMine_out wallet) (vout wtx)); [reflexivity |].
        discriminate Hnil.
    + intros [H | (_ & _ & ->)]; [discriminate H | reflexivity].
  - apply orb_false_elim in Htest as [Hnet Hcb].
    assert (~ (0 < nNet wtx \/ IsCoinBase wtx = true)) as Hno.
    { intros [Hn | Hc]; [| congruence].
      destruct (Z.gtb_spec (nNet wtx) 0); [discriminate | lia]. }
    split; [| intros [H | (_ & H & _)]; [discriminate H | contradiction]].
    intros Hnil. exfalso.
    destruct (fAllFromMe wallet wtx); cbn [andb] in Hnil; [| discriminate Hnil].
    destruct (fAllToMe wallet wtx) eqn:Hto; [discriminate Hnil |].
    rewrite fAllToMe_forallb in Hto. apply forallb_false_filter in Hto.
    apply (f_equal (@length _)) in Hnil. rewrite debit_fold_length in Hnil.
    cbn [length] in Hnil.
    destruct (List.filter (fun txout => negb (IsMine_out wallet txout)) (vout wtx));
      [contradiction | discriminate Hnil].
Qed.

Lemma debit_records_total wtx (outs : list CTxOut) :
  forall k, total (map debit (debit_records ExtractAddress ToString wtx k 0 outs))
            = - total (map nValue outs).
Proof.
  induction outs as [| txout outs IH]; intros k; [reflexivity |].
  cbn [debit_records map total fold_right]. fold (total (map nValue outs)).
  change (fold_right Z.add 0
            (map debit (debit_records ExtractAddress ToString wtx (S k) 0 outs)))
    with (total (map debit (debit_records ExtractAddress ToString wtx (S k) 0 outs))).
  rewrite IH. cbn [debit debit_record]. lia.
Qed.

(** X8: in the debit branch the fee is charged once.  Under the conditions
    of that branch (inputs all of the wallet, outputs not all, net value at
    most zero, no coinbase or coinstake, amounts that do not overflow, fee
    not negative), the debits of the records add up to minus the sum of
    the values of the outputs that are not the wallet's, minus the fee. *)
Theorem decompose_debit_total wallet wtx :
  showTransaction wtx = true ->
  IsCoinStake wtx = false ->
  IsCoinBase wtx = false ->
  amounts_ok wtx ->
  GetCredit wtx - GetDebit wtx <= 0 ->
  forallb (IsMine_in wallet) (vin wtx) = true ->
  forallb (IsMine_out wallet) (vout wtx) = false ->
  0 <= GetDebit wtx - GetValueOut wtx ->
  total (map debit (decomposeTransaction ExtractAddress ToString wallet wtx))
  = - (total (map nValue
                (List.filter (fun txout => negb (IsMine_out wallet txout))
                             (vout wtx)))
       + (GetDebit wtx - GetValueOut wtx)).
Proof.
  intros Hshow Hstake Hcb Hok Hnet Hin Hout Hfee.
  pose proof (amounts_ok_net wtx Hok) as Hr.
  pose proof (forallb_false_filter _ _ Hout) as Hext.
  destruct Hok as (Hc & Hd & Hch & Hvo & Hall). unfold amount_ok in Hc, Hd, Hch, Hvo.
  unfold decomposeTransaction.
  rewrite Hshow, Hstake, credit_test_false by assumption.
  rewrite fAllFromMe_forallb, fAllToMe_forallb, Hin, Hout. cbn [andb].
  rewrite Int64Facts.sub_exact by (unfold Int64.in_range, Int64.half; lia).
  rewrite debit_fold by (assumption || lia). cbn [app length].
  destruct (List.filter (fun txout => negb (IsMine_out wallet txout)) (vout wtx))
    as [| txout outs]; [contradiction |].
  cbn [debit_records map total fold_right].
  change (fold_right Z.add 0
            (map debit (debit_records ExtractAddress ToString wtx 1 0 outs)))
    with (total (map debit (debit_records ExtractAddress ToString wtx 1 0 outs))).
  rewrite debit_records_total. fold (total (map nValue outs)).
  cbn [debit debit_record]. lia.
Qed.

End Decomposition.

(** ** Further properties of updateStatus *)

Section StatusSnapshot.

Context {CScript : Type}.
Variable LOCKTIME_THRESHOLD : Z.
Variable NumConfirmations : Z.

Implicit Types (wtx : CWalletTx (CScript := CScript))
               (r : TransactionRecord) (chain : ChainState).

Lemma updateStatus_cur_num_blocks chain wtx r :
  cur_num_blocks (status (updateStatus LOCKTIME_THRESHOLD NumConfirmations chain wtx r))
  = nBestHeight chain.
Proof. unfold updateStatus. repeat case_match; reflexivity. Qed.

(** The maturity after a call, as a function of what the call reads. *)
Lemma updateStatus_maturity_eq chain wtx r :
  maturity (status (updateStatus LOCKTIME_THRESHOLD NumConfirmations chain wtx r))
  = if is_generated (type r) then
      if GetCredit wtx =? 0 then
        if IsInMainChain wtx then
          if not_requested chain wtx then MaturesWarning else Immature
        else NotAccepted
      else Mature
    else maturity (status r).
Proof. unfold updateStatus. repeat case_match; reflexivity. Qed.

(** The status code after a call, as a function of what the call reads. *)
Lemma updateStatus_status_code_eq chain wtx r :
  status_code (status (updateStatus LOCKTIME_THRESHOLD NumConfirmations chain wtx r))
  = if negb (IsFinal wtx) then
      if nLockTime wtx <? LOCKTIME_THRESHOLD then OpenUntilBlock else OpenUntilDate
    else if not_requested chain wtx then Offline
    else if GetDepthInMainChain wtx <? NumConfirmations then Unconfirmed
    else HaveConfirmations.
Proof.
  unfold updateStatus. cbn [depth st_depth st_cur_num_blocks].
  repeat case_match; reflexivity.
Qed.

(** X9: a status that was just computed needs no update as long as the
    best height is the one it was computed at, and needs one as soon as
    the best height is another. *)
Theorem statusUpdateNeeded_after_update chain wtx r :
  statusUpdateNeeded chain
    (updateStatus LOCKTIME_THRESHOLD NumConfirmations chain wtx r) = false /\
  forall chain',
    statusUpdateNeeded chain'
      (updateStatus LOCKTIME_THRESHOLD NumConfirmations chain wtx r) = true
    <-> nBestHeight chain' <> nBestHeight chain.
Proof.
  unfold statusUpdateNeeded. rewrite updateStatus_cur_num_blocks. split.
  - rewrite Z.eqb_refl. reflexivity.
  - intros chain'.
    destruct (Z.eqb_spec (nBestHeight chain) (nBestHeight chain')) as [He | Hne];
      cbn [negb]; split; intros H; congruence.
Qed.

(** X10: updateStatus is idempotent: a second call on the same
    transaction and chain state changes nothing. *)
Theorem updateStatus_idempotent chain wtx r :
  updateStatus LOCKTIME_THRESHOLD NumConfirmations chain wtx
    (updateStatus LOCKTIME_THRESHOLD NumConfirmations chain wtx r)
  = updateStatus LOCKTIME_THRESHOLD NumConfirmations chain wtx r.
Proof.
  unfold updateStatus. cbn [type idx status set_status hash time address debit credit].
  destruct (find_pindex chain wtx), (IsCoinBase wtx), (IsFinal wtx),
    (nLockTime wtx <? LOCKTIME_THRESHOLD), (not_requested chain wtx),
    (is_generated (type r)), (GetCredit wtx =? 0), (IsInMainChain wtx);
    cbn [negb depth st_depth st_cur_num_blocks st_status st_open_for st_maturity
         st_matures_in st_sortKey st_confirmed];
    destruct (GetDepthInMainChain wtx <? NumConfirmations); reflexivity.
Qed.

(** X11: what updateStatus leaves alone.  For a final transaction open_for
    keeps its value; matures_in keeps its value unless the record is
    Generated or StakeMint and the transaction has credit zero and is in
    the main chain. *)
Theorem updateStatus_unwritten chain wtx r :
  let s := status (updateStatus LOCKTIME_THRESHOLD NumConfirmations chain wtx r) in
  (IsFinal wtx = true -> open_for s = open_for (status r)) /\
  (~ ((type r = Generated \/ type r = StakeMint) /\
      GetCredit wtx = 0 /\ IsInMainChain wtx = true) ->
   matures_in s = matures_in (status r)).
Proof.
  intros s. subst s. unfold updateStatus. split.
  - intros ->. cbn [negb]. repeat case_match; reflexivity.
  - intros Hno.
    destruct (is_generated (type r)) eqn:Hgen; [| repeat case_match; reflexivity].
    destruct (Z.eqb_spec (GetCredit wtx) 0) as [Hc | Hc];
      [| repeat case_match; reflexivity].
    destruct (IsInMainChain wtx) eqn:Hm; [| repeat case_match; reflexivity].
    exfalso. apply Hno. split; [| split; [exact Hc | reflexivity]].
    unfold is_generated in Hgen. apply orb_true_iff in Hgen as [H | H];
      apply bool_decide_eq_true in H; auto.
Qed.

(** X12: the maturity warning goes with the status Offline.  For a
    Generated or StakeMint record of a final transaction, MaturesWarning
    is only set together with Offline; and when the credit is zero and the
    transaction is in the main chain, Offline comes with MaturesWarning. *)
Theorem maturity_warning_offline chain wtx r :
  type r = Generated \/ type r = StakeMint ->
  IsFinal wtx = true ->
  let s := status (updateStatus LOCKTIME_THRESHOLD NumConfirmations chain wtx r) in
  (maturity s = MaturesWarning -> status_code s = Offline) /\
  (GetCredit wtx = 0 -> IsInMainChain wtx = true ->
   status_code s = Offline -> maturity s = MaturesWarning).
Proof.
  intros Hty Hfinal s. subst s.
  assert (is_generated (type r) = true) as Hgen
    by (unfold is_generated; destruct Hty as [-> | ->]; reflexivity).
  rewrite updateStatus_maturity_eq, updateStatus_status_code_eq, Hgen, Hfinal.
  cbn [negb]. split.
  - repeat case_match; congruence.
  - intros -> ->. change (0 =? 0) with true. cbv iota.
    repeat case_match; congruence.
Qed.

End StatusSnapshot.

(** ** The order of sort keys *)

Section SortKeys.

Context {CScript : Type}.
Variable LOCKTIME_THRESHOLD : Z.
Variable NumConfirmations : Z.

Implicit Types (wtx : CWalletTx (CScript := CScript))
               (r : TransactionRecord) (chain : ChainState).

(** X13: among transactions that are in a block, the sort key follows the
    block height: a lower height (not negative, and heights are ints)
    gives a lower key, whatever the coinbase flags, the receive times and
    the record indices are. *)
Theorem sortKey_orders_heights chain wtx1 wtx2 r1 r2 (p1 p2 : CBlockIndex) :
  mapBlockIndex chain !! hashBlock wtx1 = Some (Some p1) ->
  mapBlockIndex chain !! hashBlock wtx2 = Some (Some p2) ->
  0 <= nHeight p1 < nHeight p2 ->
  nHeight p2 <= INT_MAX ->
  String.compare
    (sortKey (status (updateStatus LOCKTIME_THRESHOLD NumConfirmations chain wtx1 r1)))
    (sortKey (status (updateStatus LOCKTIME_THRESHOLD NumConfirmations chain wtx2 r2)))
  = Lt.
Proof.
  intros H1 H2 Hh Hmax. rewrite !updateStatus_sortKey. unfold find_pindex.
  rewrite H1, H2. unfold format_sortKey, INT_MAX in *.
  rewrite (PrintfFacts.fmt_0d_fixed 10 (nHeight p1)),
    (PrintfFacts.fmt_0d_fixed 10 (nHeight p2)) by (simpl; lia).
  apply PrintfFacts.fixed_compare_lt; simpl; lia.
Qed.

(** X14: how ties are broken between two transactions of the same block
    (or both without a block).  A transaction that is not a coinbase comes
    before one that is; with equal coinbase flags the earlier receive time
    (an unsigned 32-bit number) comes first; with equal receive times the
    smaller record index comes first, for indices up to 999. *)
Theorem sortKey_tie_breaks chain wtx1 wtx2 r1 r2 :
  find_pindex chain wtx1 = find_pindex chain wtx2 ->
  let key1 :=
    sortKey (status (updateStatus LOCKTIME_THRESHOLD NumConfirmations chain wtx1 r1)) in
  let key2 :=
    sortKey (status (updateStatus LOCKTIME_THRESHOLD NumConfirmations chain wtx2 r2)) in
  (IsCoinBase wtx1 = false -> IsCoinBase wtx2 = true ->
     String.compare key1 key2 = Lt) /\
  (IsCoinBase wtx1 = IsCoinBase wtx2 ->
   0 <= nTimeReceived wtx1 < nTimeReceived wtx2 -> nTimeReceived wtx2 < 2 ^ 32 ->
     String.compare key1 key2 = Lt) /\
  (IsCoinBase wtx1 = IsCoinBase wtx2 ->
   nTimeReceived wtx1 = nTimeReceived wtx2 ->
   0 <= idx r1 < idx r2 -> idx r2 < 1000 ->
     String.compare key1 key2 = Lt).
Proof.
  intros Hp key1 key2. subst key1 key2. rewrite !updateStatus_sortKey, Hp.
  unfold format_sortKey. rewrite !KeyFacts.compare_app_prefix.
  split; [| split].
  - intros -> ->. reflexivity.
  - intros -> Ht Hmax. rewrite !KeyFacts.compare_app_prefix.
    rewrite !KeyFacts.fmt_0u_fixed.
    rewrite !Z.mod_small by lia.
    apply PrintfFacts.fixed_compare_lt; simpl; lia.
  - intros -> -> Hi Hmax. rewrite !KeyFacts.compare_app_prefix.
    rewrite (PrintfFacts.fmt_0d_fixed 3 (idx r1)),
      (PrintfFacts.fmt_0d_fixed 3 (idx r2)) by (simpl; lia).
    rewrite <- (KeyFacts.app_empty_r (Printf.fixed 3 (idx r1))).
    rewrite <- (KeyFacts.app_empty_r (Printf.fixed 3 (idx r2))).
    apply PrintfFacts.fixed_compare_lt; simpl; lia.
Qed.

(** X15: the sort key has a fixed width of 27 characters when the height
    of the block (if there is one) is a non-negative int and the record
    index is between 0 and 999. *)
Theorem sortKey_length chain wtx r :
  (forall p, find_pindex chain wtx = Some p -> 0 <= nHeight p <= INT_MAX) ->
  0 <= idx r < 1000 ->
  String.length
    (sortKey (status (updateStatus LOCKTIME_THRESHOLD NumConfirmations chain wtx r)))
  = 27%nat.
Proof.
  intros Hh Hi. rewrite updateStatus_sortKey. unfold format_sortKey.
  set (h := match find_pindex chain wtx with
            | Some p => nHeight p
            | None => INT_MAX
            end).
  assert (0 <= h <= 2147483647) as Hheight.
  { subst h. destruct (find_pindex chain wtx) as [p |];
      [apply (Hh p); reflexivity | unfold INT_MAX; lia]. }
  rewrite !PrintfFacts.app_length.
  rewrite KeyFacts.fmt_0u_fixed.
  rewrite (PrintfFacts.fmt_0d_fixed 10 h), (PrintfFacts.fmt_0d_fixed 3 (idx r))
    by (simpl; lia).
  rewrite !KeyFacts.fixed_length.
  destruct (IsCoinBase wtx); vm_compute; reflexivity.
Qed.

End SortKeys.

(** ** The visibility filter and the identifiers *)

Section Visibility.

Context {CScript CBitcoinAddress : Type}.
Variable ExtractAddress : CScript -> option CBitcoinAddress.
Variable ToString : CBitcoinAddress -> string.
Variable LOCKTIME_THRESHOLD : Z.
Variable NumConfirmations : Z.
Variable uint256_ToString : N -> string.

Implicit Types (wallet : CWallet (CScript := CScript)
                                 (CBitcoinAddress := CBitcoinAddress))
               (wtx : CWalletTx (CScript := CScript))
               (r : TransactionRecord) (chain : ChainState).

(** X16: a transaction that is shown stays shown when it gets deeper in
    the chain: showTransaction depends on the coinbase flag and the depth
    only, and is monotone in the depth. *)
Theorem showTransaction_monotone wtx1 wtx2 :
  IsCoinBase wtx1 = IsCoinBase wtx2 ->
  GetDepthInMainChain wtx1 <= GetDepthInMainChain wtx2 ->
  showTransaction wtx1 = true ->
  showTransaction wtx2 = true.
Proof.
  unfold showTransaction. intros <- Hd.
  destruct (IsCoinBase wtx1); [| reflexivity].
  destruct (Z.ltb_spec (GetDepthInMainChain wtx1) 2); [discriminate |].
  destruct (Z.ltb_spec (GetDepthInMainChain wtx2) 2); [lia | reflexivity].
Qed.

Lemma decompose_dense wallet wtx :
  dense (decomposeTransaction ExtractAddress ToString wallet wtx).
Proof.
  unfold decomposeTransaction.
  destruct (showTransaction wtx); [| reflexivity].
  destruct (IsCoinStake wtx); [reflexivity |].
  destruct ((nNet wtx >? 0) || IsCoinBase wtx).
  - apply (fold_dense (fun parts => parts)); [| reflexivity].
    intros parts txout. apply credit_step_dense.
  - destruct (fAllFromMe wallet wtx); cbn [andb].
    + destruct (fAllToMe wallet wtx); [reflexivity |].
      apply (fold_dense fst); [| reflexivity].
      intros st txout. apply debit_step_dense.
    + reflexivity.
Qed.

Lemma dense_lookup (parts : list TransactionRecord) (i : nat) r :
  dense parts -> parts !! i = Some r -> idx r = Z.of_nat i.
Proof.
  unfold dense. intros Hd Hi.
  assert (map idx parts !! i = Some (idx r)) as H1
    by (rewrite list_lookup_fmap, Hi; reflexivity).
  rewrite Hd, list_lookup_fmap in H1.
  apply lookup_lt_Some in Hi.
  rewrite lookup_seq_lt in H1 by exact Hi. cbn in H1. congruence.
Qed.

(** X17: the identifiers of the records of one transaction are pairwise
    distinct: two records at different positions of the list that
    decomposeTransaction returns have different getTxID texts, however
    many records there are. *)
Theorem getTxID_distinct wallet wtx (i j : nat) (ri rj : TransactionRecord) :
  decomposeTransaction ExtractAddress ToString wallet wtx !! i = Some ri ->
  decomposeTransaction ExtractAddress ToString wallet wtx !! j = Some rj ->
  i <> j ->
  getTxID uint256_ToString ri <> getTxID uint256_ToString rj.
Proof.
  intros Hi Hj Hne Heq.
  pose proof (decompose_dense wallet wtx) as Hd.
  pose proof (dense_lookup _ i ri Hd Hi) as Ii.
  pose proof (dense_lookup _ j rj Hd Hj) as Ij.
  assert (Forall (fun r => hash r = GetHash wtx)
            (decomposeTransaction ExtractAddress ToString wallet wtx)) as Hh
    by (apply decompose_Forall; intros; reflexivity).
  rewrite Forall_lookup in Hh.
  unfold getTxID in Heq. rewrite (Hh i ri Hi), (Hh j rj Hj), Ii, Ij in Heq.
  apply KeyFacts.app_inv_head in Heq. injection Heq as Heq.
  apply KeyFacts.fmt_0d_inj in Heq; lia.
Qed.

(** X18: decomposition followed by the status update.  For the records of
    a transaction that is neither coinbase nor coinstake, updateStatus
    (for any transaction and chain state) leaves the maturity as it was;
    for the records of a coinbase or coinstake, the maturity becomes Mature
    when the credit is not zero and NotAccepted when the credit is zero and
    the transaction is not in the main chain. *)
Theorem decompose_update_maturity wallet wtx chain :
  Forall (fun r =>
            let s := status (updateStatus LOCKTIME_THRESHOLD NumConfirmations
                               chain wtx r) in
            (IsCoinBase wtx = false -> IsCoinStake wtx = false ->
               maturity s = maturity (status r)) /\
            (IsCoinBase wtx = true \/ IsCoinStake wtx = true ->
               (GetCredit wtx <> 0 -> maturity s = Mature) /\
               (GetCredit wtx = 0 -> IsInMainChain wtx = false ->
                  maturity s = NotAccepted)))
         (decomposeTransaction ExtractAddress ToString wallet wtx).
Proof.
  assert (Forall (fun r => is_generated (type r)
                           = IsCoinStake wtx || IsCoinBase wtx)
            (decomposeTransaction ExtractAddress ToString wallet wtx)) as Hk.
  { apply decompose_Forall.
    - intros ->. reflexivity.
    - intros -> k txout. unfold credit_record, recv_kind. cbn [type].
      repeat case_match; reflexivity.
    - intros -> -> _. reflexivity.
    - intros -> -> _ k txout d. unfold send_kind. cbn [type].
      repeat case_match; reflexivity.
    - intros -> -> _. reflexivity. }
  eapply Forall_impl; [exact Hk |].
  intros r Hr. cbv zeta. rewrite updateStatus_maturity_eq, Hr. split.
  - intros -> ->. reflexivity.
  - intros Hreward.
    assert (IsCoinStake wtx || IsCoinBase wtx = true) as ->
      by (destruct Hreward as [-> | ->]; [apply orb_true_r | reflexivity]).
    split.
    + intros Hc. destruct (Z.eqb_spec (GetCredit wtx) 0); [contradiction | reflexivity].
    + intros -> ->. reflexivity.
Qed.

End Visibility.

(** ** The further properties on the transactions of [Scenario] *)

(** The coinstake of the wallet: one StakeMint record, debit -1000 and
    credit 1010. *)
Lemma decompose_coinstake_witness :
  showTransaction stake_tx = true /\
  IsCoinStake stake_tx = true /\
  Int64.in_range (- GetDebit stake_tx) /\
  exists r, decompose stake_tx = [r] /\ type r = StakeMint /\
            address r = EmptyString /\ idx r = 0 /\
            debit r = -1000 /\ credit r = 1010.
Proof.
  assert (showTransaction stake_tx = true) as H1 by reflexivity.
  assert (IsCoinStake stake_tx = true) as H2 by reflexivity.
  assert (Int64.in_range (- GetDebit stake_tx)) as H3
    by (vm_compute; split; [discriminate | reflexivity]).
  split; [exact H1 |]. split; [exact H2 |]. split; [exact H3 |].
  exact (decompose_coinstake ExtractAddress ToString wallet stake_tx H1 H2 H3).
Defined.

Lemma payment_tx_amounts_ok : amounts_ok payment_tx.
Proof.
  unfold amounts_ok, amount_ok. cbn.
  repeat split; try lia. repeat constructor; cbn; lia.
Defined.

(** The payment of 500 and 20 with a fee of 10: the debits -510 and -20 add
    up to -530. *)
Lemma decompose_debit_total_witness :
  showTransaction payment_tx = true /\
  IsCoinStake payment_tx = false /\
  IsCoinBase payment_tx = false /\
  amounts_ok payment_tx /\
  GetCredit payment_tx - GetDebit payment_tx <= 0 /\
  forallb (IsMine_in wallet) (vin payment_tx) = true /\
  forallb (IsMine_out wallet) (vout payment_tx) = false /\
  0 <= GetDebit payment_tx - GetValueOut payment_tx /\
  total (map debit (decompose payment_tx)) = -530.
Proof.
  assert (showTransaction payment_tx = true) as H1 by reflexivity.
  assert (IsCoinStake payment_tx = false) as H2 by reflexivity.
  assert (IsCoinBase payment_tx = false) as H3 by reflexivity.
  pose proof payment_tx_amounts_ok as H4.
  assert (GetCredit payment_tx - GetDebit payment_tx <= 0) as H5 by (cbn; lia).
  assert (forallb (IsMine_in wallet) (vin payment_tx) = true) as H6 by reflexivity.
  assert (forallb (IsMine_out wallet) (vout payment_tx) = false) as H7 by reflexivity.
  assert (0 <= GetDebit payment_tx - GetValueOut payment_tx) as H8 by (cbn; lia).
  do 8 (split; [assumption |]).
  exact (decompose_debit_total ExtractAddress ToString wallet payment_tx
           H1 H2 H3 H4 H5 H6 H7 H8).
Defined.

(** A reward received long ago that no peer asked for: its Generated
    record is Offline and carries the maturity warning. *)
Lemma maturity_warning_offline_witness :
  let tx := never_requested (received_at 1699999000 (reward_tx 3)) in
  let r := set_type Generated a_record in
  type r = Generated /\
  IsFinal tx = true /\
  GetCredit tx = 0 /\
  IsInMainChain tx = true /\
  status_code (status (updateStatus LOCKTIME_THRESHOLD NumConfirmations chain tx r))
  = Offline /\
  maturity (status (updateStatus LOCKTIME_THRESHOLD NumConfirmations chain tx r))
  = MaturesWarning.
Proof.
  intros tx r.
  assert (type r = Generated) as H1 by reflexivity.
  assert (IsFinal tx = true) as H2 by reflexivity.
  assert (GetCredit tx = 0) as H3 by reflexivity.
  assert (IsInMainChain tx = true) as H4 by (vm_compute; reflexivity).
  assert (status_code (status (updateStatus LOCKTIME_THRESHOLD NumConfirmations
                                 chain tx r)) = Offline) as H5
    by (vm_compute; reflexivity).
  split; [exact H1 |]. split; [exact H2 |]. split; [exact H3 |].
  split; [exact H4 |]. split; [exact H5 |].
  exact (proj2 (maturity_warning_offline LOCKTIME_THRESHOLD NumConfirmations
                  chain tx r (or_introl H1) H2) H3 H4 H5).
Defined.

(** A transaction of the block at height 100 and one of the block at
    height 250, the second received earlier: the first key is lower. *)
Lemma sortKey_orders_heights_witness :
  let tx1 := in_block 7 151 base_tx in
  let tx2 := received_at 1600000000 (in_block 8 1 base_tx) in
  mapBlockIndex chain2 !! hashBlock tx1 = Some (Some (mkBlockIndex 100)) /\
  mapBlockIndex chain2 !! hashBlock tx2 = Some (Some (mkBlockIndex 250)) /\
  0 <= nHeight (mkBlockIndex 100) < nHeight (mkBlockIndex 250) /\
  nHeight (mkBlockIndex 250) <= INT_MAX /\
  String.compare
    (sortKey (status (updateStatus LOCKTIME_THRESHOLD NumConfirmations chain2
                        tx1 a_record)))
    (sortKey (status (updateStatus LOCKTIME_THRESHOLD NumConfirmations chain2
                        tx2 a_record)))
  = Lt.
Proof.
  intros tx1 tx2.
  assert (mapBlockIndex chain2 !! hashBlock tx1 = Some (Some (mkBlockIndex 100)))
    as H1 by (vm_compute; reflexivity).
  assert (mapBlockIndex chain2 !! hashBlock tx2 = Some (Some (mkBlockIndex 250)))
    as H2 by (vm_compute; reflexivity).
  assert (0 <= nHeight (mkBlockIndex 100) < nHeight (mkBlockIndex 250)) as H3
    by (cbn; lia).
  assert (nHeight (mkBlockIndex 250) <= INT_MAX) as H4 by (vm_compute; discriminate).
  split; [exact H1 |]. split; [exact H2 |]. split; [exact H3 |]. split; [exact H4 |].
  exact (sortKey_orders_heights LOCKTIME_THRESHOLD NumConfirmations chain2
           tx1 tx2 a_record a_record (mkBlockIndex 100) (mkBlockIndex 250)
           H1 H2 H3 H4).
Defined.

(** Two transactions of block 7, a payment and a reward: the key of the
    payment is lower. *)
Lemma sortKey_tie_breaks_witness :
  find_pindex chain (in_block 7 3 base_tx) = find_pindex chain (reward_tx 3) /\
  IsCoinBase (in_block 7 3 base_tx) = false /\
  IsCoinBase (reward_tx 3) = true /\
  String.compare
    (sortKey (status (updateStatus LOCKTIME_THRESHOLD NumConfirmations chain
                        (in_block 7 3 base_tx) a_record)))
    (sortKey (status (updateStatus LOCKTIME_THRESHOLD NumConfirmations chain
                        (reward_tx 3) a_record)))
  = Lt.
Proof.
  assert (find_pindex chain (in_block 7 3 base_tx) = find_pindex chain (reward_tx 3))
    as H1 by (vm_compute; reflexivity).
  assert (IsCoinBase (in_block 7 3 base_tx) = false) as H2 by reflexivity.
  assert (IsCoinBase (reward_tx 3) = true) as H3 by reflexivity.
  split; [exact H1 |]. split; [exact H2 |]. split; [exact H3 |].
  exact (proj1 (sortKey_tie_breaks LOCKTIME_THRESHOLD NumConfirmations chain
                  (in_block 7 3 base_tx) (reward_tx 3) a_record a_record H1)
           H2 H3).
Defined.

(** The key of a transaction without a block has 27 characters. *)
Lemma sortKey_length_witness :
  (forall p, find_pindex chain base_tx = Some p -> 0 <= nHeight p <= INT_MAX) /\
  0 <= idx a_record < 1000 /\
  String.length
    (sortKey (status (updateStatus LOCKTIME_THRESHOLD NumConfirmations chain
                        base_tx a_record)))
  = 27%nat.
Proof.
  assert (forall p, find_pindex chain base_tx = Some p -> 0 <= nHeight p <= INT_MAX)
    as H1 by (intros p Hp; vm_compute in Hp; discriminate Hp).
  assert (0 <= idx a_record < 1000) as H2 by (cbn; lia).
  split; [exact H1 |]. split; [exact H2 |].
  exact (sortKey_length LOCKTIME_THRESHOLD NumConfirmations chain base_tx a_record
           H1 H2).
Defined.

(** The reward that is shown two blocks deep is shown three blocks deep. *)
Lemma showTransaction_monotone_witness :
  IsCoinBase (reward_tx 2) = IsCoinBase (reward_tx 3) /\
  GetDepthInMainChain (reward_tx 2) <= GetDepthInMainChain (reward_tx 3) /\
  showTransaction (reward_tx 2) = true /\
  showTransaction (reward_tx 3) = true.
Proof.
  assert (IsCoinBase (reward_tx 2) = IsCoinBase (reward_tx 3)) as H1 by reflexivity.
  assert (GetDepthInMainChain (reward_tx 2) <= GetDepthInMainChain (reward_tx 3))
    as H2 by (vm_compute; discriminate).
  assert (showTransaction (reward_tx 2) = true) as H3 by reflexivity.
  split; [exact H1 |]. split; [exact H2 |]. split; [exact H3 |].
  exact (showTransaction_monotone (reward_tx 2) (reward_tx 3) H1 H2 H3).
Defined.

(** The two records of the reward have different identifiers. *)
Lemma getTxID_distinct_witness :
  let r0 := set_type Generated (set_credit 100 (TransactionRecord_new 42 1700000000)) in
  let r1 := set_type Generated
              (set_credit 200 (set_idx 1 (TransactionRecord_new 42 1700000000))) in
  decompose (reward_tx 2) !! 0%nat = Some r0 /\
  decompose (reward_tx 2) !! 1%nat = Some r1 /\
  0%nat <> 1%nat /\
  getTxID hash_text r0 = "42-000"%string /\
  getTxID hash_text r1 = "42-001"%string /\
  (getTxID hash_text r0 = getTxID hash_text r1 -> False).
Proof.
  intros r0 r1.
  assert (decomposeTransaction ExtractAddress ToString wallet (reward_tx 2) !! 0%nat
          = Some r0) as H1 by reflexivity.
  assert (decomposeTransaction ExtractAddress ToString wallet (reward_tx 2) !! 1%nat
          = Some r1) as H2 by reflexivity.
  assert (0%nat <> 1%nat) as H3 by discriminate.
  split; [exact H1 |]. split; [exact H2 |]. split; [exact H3 |].
  split; [vm_compute; reflexivity |]. split; [vm_compute; reflexivity |].
  exact (getTxID_distinct ExtractAddress ToString hash_text wallet (reward_tx 2)
           0%nat 1%nat r0 r1 H1 H2 H3).
Defined.
